(** * csharpierd: the daemon lifecycle manager of [index.ts]

    A shallow embedding of the lock manager, the state store, the health
    checks, the process supervisor, [ensureServer] and [formatCode], and
    the properties of them that the specification states; then of the
    command line, [stopServer], [showStatus] and [main], and of what the
    code itself shows of all of these.

    The program is a sequence of awaited interactions with its
    surroundings.  It is embedded in a state-and-exception monad over a
    [World]: the two files the program owns are kept in a finite map from
    path to file, whereas the process table, the sockets and the wall
    clock are an arbitrary transition system behind the [Platform]
    interface.  The theorems hold for every platform; a small scripted
    platform, [Sim], provides concrete executions.

    What is left out: other invocations running at the same time, faults
    of the two files (reads, writes and removals succeed), a [Bun.spawn]
    that cannot launch, a state file that holds a JSON document other
    than a descriptor, and the time that anything but [Bun.sleep]
    takes.  No statement below says what the code does in these
    cases. *)

From Stdlib Require Import ZArith Ascii String List Lia DecimalString.
From stdpp Require Import gmap strings.

Local Open Scope Z_scope.

(** ** Constants of [index.ts] *)

Definition STATE_FILE : string := "/tmp/csharpierd-state.json".
Definition LOCK_FILE : string := "/tmp/csharpierd.lock".
Definition SERVER_PORT : Z := 18912.
Definition IDLE_TIMEOUT_MS : Z := 60 * 60 * 1000.

(** ** Data *)

(** [interface ServerState] *)
Record ServerState := mkState {
  pid : Z;
  port : Z;
  lastAccess : Z
}.

(** The status tag of [interface FormatResult]. *)
Inductive FormatStatus := Formatted | Ignored | Failed | UnsupportedFile.

(** [interface FormatResult]: both texts are optional properties. *)
Record FormatResult := mkResult {
  formattedFile : option string;
  errorMessage : option string;
  status : FormatStatus
}.

(** The JSON object that [formatCode] posts. *)
Record FormatRequest := mkRequest {
  fileName : string;
  fileContents : string
}.

(** An HTTP response: its status code, its body as [response.text()]
    reads it and as [response.json()] reads it ([None] when the body is
    not a JSON document). *)
Record Response := mkResponse {
  code : Z;
  body_text : string;
  body_json : option FormatResult
}.

(** What [await fetch(...)] comes to. *)
Inductive FetchOutcome :=
| Responded (r : Response)
| NetworkError
| TimedOut.

(** The values the program throws or has thrown at it. *)
Inductive Exn :=
| Error (message : string)
| ShellError (exitCode : Z)
| SyntaxError
| FetchFailed
| TimeoutError
| ENOENT.

(** The signals [killServer] sends. *)
Inductive Signal := SIGTERM | SIGKILL.

(** The shell commands the program runs through [Bun.$]. *)
Inductive Cmd :=
| KillProbe (p : Z)
| Kill (s : Signal) (p : Z)
| RmF (paths : list string).

(** What a file holds: text, or the JSON text of a descriptor, kept
    structured ([JSON.stringify] followed by [file.json()] is taken to
    give the descriptor back). *)
Inductive Content :=
| Text (s : string)
| StateJson (st : ServerState).

Record File := mkFile {
  mtime : Z;
  content : Content
}.

(** The observable actions of a run, most recent first in a trace. *)
Inductive Event :=
| EvConsole (msg : string) (err : option Exn)
| EvSleep (ms : Z)
| EvShell (c : Cmd)
| EvWrite (path : string) (c : Content)
| EvGet (p : Z)
| EvPost (p : Z) (rq : FormatRequest)
| EvSpawn (argv : list string) (child : Z).

(** ** The platform

    Everything the program does not own.  [OS] is the state of the
    machine around one invocation; probes read it, actions move it. *)
Class Platform (OS : Type) := {
  (** [Date.now()] *)
  clock : OS -> Z;
  (** [Bun.sleep(ms)] *)
  sleep : Z -> OS -> OS;
  (** exit status of [kill -0 pid] *)
  kill0 : OS -> Z -> Z;
  (** [kill pid] and [kill -9 pid]: exit status and effect *)
  kill : Signal -> Z -> OS -> Z * OS;
  (** [Bun.spawn(argv).pid] *)
  spawn : list string -> OS -> Z * OS;
  (** [fetch] of the root path of [localhost:port], aborted after 50 ms *)
  http_get : OS -> Z -> FetchOutcome;
  (** [fetch] of [POST /format] on [localhost:port] *)
  http_post : Z -> FormatRequest -> OS -> FetchOutcome * OS;
  (** [process.pid], [process.cwd()] and the [path] module *)
  process_pid : Z;
  process_cwd : string;
  path_isAbsolute : string -> bool;
  path_join : string -> string -> string
}.

(** The world of one invocation. *)
Record World (OS : Type) := mkWorld {
  os : OS;
  files : gmap string File;
  trace : list Event
}.
Arguments mkWorld {OS} _ _ _.
Arguments os {OS} _.
Arguments files {OS} _.
Arguments trace {OS} _.

(** ** The monad of awaited effects *)

Inductive Outcome (A : Type) :=
| Ok (a : A)
| Throw (e : Exn).
Arguments Ok {A} _.
Arguments Throw {A} _.

Definition M (OS A : Type) : Type := World OS -> Outcome A * World OS.

Definition ret {OS A} (a : A) : M OS A := fun w => (Ok a, w).

Definition throw {OS A} (e : Exn) : M OS A := fun w => (Throw e, w).

Definition bind {OS A B} (m : M OS A) (k : A -> M OS B) : M OS B :=
  fun w =>
    match m w with
    | (Ok a, w') => k a w'
    | (Throw e, w') => (Throw e, w')
    end.

(** [try { m } catch (e) { h e }] *)
Definition try_catch {OS A} (m : M OS A) (h : Exn -> M OS A) : M OS A :=
  fun w =>
    match m w with
    | (Ok a, w') => (Ok a, w')
    | (Throw e, w') => h e w'
    end.

(** [try { m } finally { f }]: [f] runs on every completion of [m]; the
    completion of [m] stands unless [f] itself throws. *)
Definition try_finally {OS A} (m : M OS A) (f : M OS unit) : M OS A :=
  fun w =>
    match m w with
    | (r, w') =>
        match f w' with
        | (Ok _, w'') => (r, w'')
        | (Throw e, w'') => (Throw e, w'')
        end
    end.

Declare Scope js_scope.
Delimit Scope js_scope with js.
Notation "x <- m ;; k" := (bind m (fun x => k))
  (at level 100, m at next level, right associativity) : js_scope.
Notation "m ;; k" := (bind m (fun _ => k))
  (at level 100, right associativity) : js_scope.
Local Open Scope js_scope.

(** Decimal rendering of an integer, as [String(n)] and template
    literals do. *)
Definition dec (n : Z) : string := NilZero.string_of_int (Z.to_int n).

Section Program.
Context {OS : Type} `{Platform OS}.

(** *** Primitive effects *)

Definition emit (e : Event) : M OS unit :=
  fun w => (Ok tt, mkWorld (os w) (files w) (e :: trace w)).

Definition console_error (msg : string) : M OS unit :=
  emit (EvConsole msg None).

Definition Date_now : M OS Z := fun w => (Ok (clock (os w)), w).

Definition Bun_sleep (ms : Z) : M OS unit :=
  fun w => (Ok tt, mkWorld (sleep ms (os w)) (files w) (EvSleep ms :: trace w)).

Definition file_exists (path : string) : M OS bool :=
  fun w => (Ok (bool_decide (is_Some (files w !! path))), w).

Definition file_stat (path : string) : M OS File :=
  fun w =>
    match files w !! path with
    | Some f => (Ok f, w)
    | None => (Throw ENOENT, w)
    end.

(** [file.json()], as [loadState] calls it on the state file: the
    descriptor that was written there, a [SyntaxError] on text.  Text
    that is a JSON document of another shape is outside the model (see
    [unparsable] for the text the statements are about). *)
Definition file_json (path : string) : M OS ServerState :=
  fun w =>
    match files w !! path with
    | Some (mkFile _ (StateJson st)) => (Ok st, w)
    | Some (mkFile _ (Text _)) => (Throw SyntaxError, w)
    | None => (Throw ENOENT, w)
    end.

Definition Bun_write (path : string) (c : Content) : M OS unit :=
  fun w =>
    (Ok tt,
     mkWorld (os w) (<[path := mkFile (clock (os w)) c]> (files w))
             (EvWrite path c :: trace w)).

(** Running a command: its exit status and its effect. *)
Definition run (c : Cmd) : M OS Z :=
  fun w =>
    match c with
    | KillProbe p => (Ok (kill0 (os w) p), mkWorld (os w) (files w) (EvShell c :: trace w))
    | Kill s p =>
        let '(rc, o) := kill s p (os w) in
        (Ok rc, mkWorld o (files w) (EvShell c :: trace w))
    | RmF paths =>
        (Ok 0, mkWorld (os w) (foldr delete (files w) paths) (EvShell c :: trace w))
    end.

(** [Bun.$`...`]: a non-zero exit status is thrown. *)
Definition sh (c : Cmd) : M OS Z :=
  rc <- run c ;;
  if rc =? 0 then ret rc else throw (ShellError rc).

(** *** [acquireLock] and [releaseLock] *)

Definition acquireLock : M OS bool :=
  try_catch
    (ex <- file_exists LOCK_FILE ;;
     free <- (if ex : bool then
                st <- file_stat LOCK_FILE ;;
                now <- Date_now ;;
                if now - mtime st >? 10000
                then sh (RmF [LOCK_FILE]) ;; ret true
                else ret false
              else ret true) ;;
     if free : bool then
       Bun_write LOCK_FILE (Text (dec process_pid)) ;;
       ret true
     else ret false)
    (fun _ => ret false).

Definition releaseLock : M OS unit :=
  sh (RmF [LOCK_FILE]) ;; ret tt.

(** *** [loadState] and [saveState] *)

Definition loadState : M OS (option ServerState) :=
  try_catch
    (ex <- file_exists STATE_FILE ;;
     if negb ex then ret None
     else st <- file_json STATE_FILE ;; ret (Some st))
    (fun _ => ret None).

Definition saveState (state : ServerState) : M OS unit :=
  Bun_write STATE_FILE (StateJson state).

(** *** Health checks *)

Definition isProcessRunning (p : Z) : M OS bool :=
  try_catch
    (rc <- sh (KillProbe p) ;; ret (rc =? 0))
    (fun _ => ret false).

(** [response.ok] *)
Definition ok (r : Response) : bool := (200 <=? code r) && (code r <=? 299).

Definition fetch_get (p : Z) : M OS Response :=
  fun w =>
    let w' := mkWorld (os w) (files w) (EvGet p :: trace w) in
    match http_get (os w) p with
    | Responded r => (Ok r, w')
    | NetworkError => (Throw FetchFailed, w')
    | TimedOut => (Throw TimeoutError, w')
    end.

Definition isServerResponsive (p : Z) : M OS bool :=
  try_catch
    (response <- fetch_get p ;;
     ret (ok response || (code response =? 404)))
    (fun _ => ret false).

(** *** [killServer] and [startServer] *)

Definition killServer (p : Z) : M OS unit :=
  try_catch
    (sh (Kill SIGTERM p) ;;
     Bun_sleep 500 ;;
     running <- isProcessRunning p ;;
     if running : bool then sh (Kill SIGKILL p) ;; ret tt else ret tt)
    (fun _ => ret tt).

(** [Bun.spawn] of a command that the platform launches; a command that
    cannot be launched, for which [Bun.spawn] throws, is outside the
    model. *)
Definition Bun_spawn (argv : list string) : M OS Z :=
  fun w =>
    let '(child, o) := spawn argv (os w) in
    (Ok child, mkWorld o (files w) (EvSpawn argv child :: trace w)).

(** The readiness loop of [startServer], by the number of iterations
    that remain; falling out of the loop reaches the [throw]. *)
Fixpoint awaitReady (n : nat) (child : Z) : M OS Z :=
  match n with
  | O => throw (Error "Server failed to start within timeout")
  | S n' =>
      Bun_sleep 200 ;;
      up <- isServerResponsive SERVER_PORT ;;
      if up : bool then
        console_error ("CSharpier server started with PID " +:+ dec child) ;;
        ret child
      else awaitReady n' child
  end.

Definition startServer : M OS Z :=
  console_error "Starting CSharpier server..." ;;
  child <- Bun_spawn ["dotnet"; "csharpier"; "server"; "--server-port";
                      dec SERVER_PORT]%string ;;
  awaitReady 50 child.

(** *** [cleanupIdleServer] *)

Definition cleanupIdleServer (state : ServerState) : M OS unit :=
  now <- Date_now ;;
  let idleTime := now - lastAccess state in
  if idleTime >? IDLE_TIMEOUT_MS then
    console_error ("Server idle for " +:+ dec (idleTime / 1000)
                   +:+ "s, shutting down...") ;;
    killServer (pid state) ;;
    sh (RmF [STATE_FILE]) ;;
    ret tt
  else ret tt.

(** *** [ensureServer] *)

(** The lock loop, by the number of attempts that remain. *)
Fixpoint lockAttempts (n : nat) : M OS unit :=
  match n with
  | O => ret tt
  | S n' =>
      got <- acquireLock ;;
      if got : bool then ret tt
      else Bun_sleep 100 ;; lockAttempts n'
  end.

(** The [if (state) { ... }] block: [Some st] when it returns [st], [None]
    when control falls through to the restart. *)
Definition reuseServer (state : ServerState) : M OS (option ServerState) :=
  cleanupIdleServer state ;;
  running <- isProcessRunning (pid state) ;;
  healthy <- (if running : bool then isServerResponsive (port state)
              else ret false) ;;
  if healthy : bool then ret (Some state)
  else
    console_error "Server process not found or not responsive, restarting..." ;;
    still <- isProcessRunning (pid state) ;;
    (if still : bool then killServer (pid state) else ret tt) ;;
    ret None.

(** The tail of the [try] block: start, build the descriptor, save. *)
Definition startFresh : M OS ServerState :=
  child <- startServer ;;
  now <- Date_now ;;
  let state := mkState child SERVER_PORT now in
  saveState state ;;
  ret state.

(** The [try] block up to the restart: load, then the [if (state)]
    block. *)
Definition knownServer : M OS (option ServerState) :=
  state <- loadState ;;
  match state with
  | Some st => reuseServer st
  | None => ret None
  end.

(** The [try] block. *)
Definition criticalSection : M OS ServerState :=
  reused <- knownServer ;;
  match reused with
  | Some st => ret st
  | None => startFresh
  end.

Definition ensureServer : M OS ServerState :=
  lockAttempts 5 ;;
  try_finally criticalSection releaseLock.

(** *** [formatCode] *)

Definition fetch_post (p : Z) (rq : FormatRequest) : M OS Response :=
  fun w =>
    let '(out, o) := http_post p rq (os w) in
    let w' := mkWorld o (files w) (EvPost p rq :: trace w) in
    match out with
    | Responded r => (Ok r, w')
    | NetworkError => (Throw FetchFailed, w')
    | TimedOut => (Throw TimeoutError, w')
    end.

Definition response_text (r : Response) : M OS string := ret (body_text r).

Definition response_json (r : Response) : M OS FormatResult :=
  match body_json r with
  | Some v => ret v
  | None => throw SyntaxError
  end.

(** [!s] for an optional string property: absent, or the empty string. *)
Definition falsy (s : option string) : bool :=
  match s with
  | None => true
  | Some EmptyString => true
  | Some (String _ _) => false
  end.

(** [new Error(m)]: an absent message is the empty message. *)
Definition new_Error (m : option string) : Exn :=
  Error (default EmptyString m).

(** The [const filePath] of [formatCode]. *)
Definition filePath (name : string) : string :=
  if path_isAbsolute name then name else path_join process_cwd name.

Definition formatCode (name contents : string) : M OS string :=
  state <- ensureServer ;;
  try_catch
    (response <- fetch_post (port state) (mkRequest (filePath name) contents) ;;
     if negb (ok response) then
       text <- response_text response ;;
       throw (Error ("Server returned " +:+ dec (code response) +:+ ": "
                     +:+ text))
     else
       result <- response_json response ;;
       now <- Date_now ;;
       let state := mkState (pid state) (port state) now in
       saveState state ;;
       if falsy (formattedFile result) then
         throw (new_Error (errorMessage result))
       else ret (default EmptyString (formattedFile result)))
    (fun error =>
       emit (EvConsole "Error formatting code:" (Some error)) ;;
       throw error).

End Program.

(** ** The command line: [stopServer], [showStatus], [showHelp], [main] *)

(** What [console.log] is given: strings and numbers.  How a number is
    rendered is the runtime's business. *)
Inductive Arg :=
| Str (s : string)
| Num (n : Z).

(** What goes to standard output: a [console.log] of some arguments, or
    a [process.stdout.write] of a text. *)
Inductive Chunk :=
| Log (line : list Arg)
| Written (s : string).

(** How an invocation ends: the exit status and what standard output
    got, in order. *)
Record Finished := mkFinished {
  exitCode : Z;
  stdout : list Chunk
}.

(** The terminal: [Bun.color(name, "ansi")] as a template literal
    interpolates it, and [Date.prototype.toLocaleString]. *)
Class Terminal := {
  Bun_color : string -> string;
  toLocaleString : Z -> string
}.

Definition ESC : ascii := "027"%char.
Definition RESET : string := String ESC "[0m".
Definition BOLD : string := String ESC "[1m".

(** [s.repeat(n)] *)
Fixpoint repeat_string (s : string) (n : nat) : string :=
  match n with
  | O => EmptyString
  | S n' => s +:+ repeat_string s n'
  end.

Definition helpText : string :=
  ("csharpierd - CSharpier formatting daemon

Usage:
  csharpierd <filename> < input.cs    Format C# code from stdin
  csharpierd --start                  Start and prewarm the server
  csharpierd --status                 Show server status
  csharpierd --stop                   Stop the background server
  csharpierd --help                   Show this help message

Description:
  A persistent CSharpier formatting daemon that starts a background server
  on first use and reuses it for subsequent formatting requests. The server
  automatically shuts down after 1 hour of inactivity.

Examples:
  # Start and prewarm the server
  csharpierd --start

  # Format a C# file
  csharpierd Program.cs < Program.cs

  # Format and save to a new file
  csharpierd MyFile.cs < MyFile.cs > MyFile.formatted.cs

  # Using cat
  cat Program.cs | csharpierd Program.cs

  # Check server status
  csharpierd --status

  # Stop the background server
  csharpierd --stop

Server Details:
  Port:          "
  +:+ dec SERVER_PORT
  +:+ "
  State File:    "
  +:+ STATE_FILE
  +:+ "
  Lock File:     "
  +:+ LOCK_FILE
  +:+ "
  Idle Timeout:  "
  +:+ dec (IDLE_TIMEOUT_MS / 1000 / 60)
  +:+ " minutes
")%string.

Section Cli.
Context {OS : Type} `{Platform OS} `{Terminal}.

Definition colorize (text color : string) : string :=
  Bun_color color +:+ text +:+ RESET.

Definition bold (text : string) : string := BOLD +:+ text +:+ RESET.

Definition showHelp : list (list Arg) := [[Str helpText]].

(** *** [stopServer] *)

Definition stopServer : M OS unit :=
  state <- loadState ;;
  match state with
  | None => console_error "No server is currently running"
  | Some state =>
      console_error ("Stopping CSharpier server (PID " +:+ dec (pid state)
                     +:+ ")...") ;;
      killServer (pid state) ;;
      sh (RmF [STATE_FILE; LOCK_FILE]) ;;
      console_error "Server stopped successfully"
  end.

(** *** [showStatus]

    The lines it logs are its value, in the order it logs them. *)

(** [IDLE_TIMEOUT_MS / 1000 / 60] *)
Definition timeoutMinutes : Z := IDLE_TIMEOUT_MS / 1000 / 60.

(** [Math.floor(idleTime / 1000 / 60)]: on integers, flooring after each
    division or once at the end is the same. *)
Definition idleMinutes (idleTime : Z) : Z := idleTime / 1000 / 60.

(** [Math.floor((idleTime / 1000) % 60)]: [%] takes the sign of the
    dividend, so the remainder of the seconds by 60 is the truncated
    remainder of the milliseconds by 60000, over 1000; the floor comes
    last. *)
Definition idleSeconds (idleTime : Z) : Z := Z.rem idleTime 60000 / 1000.

(** The status line, by the two probes. *)
Definition statusLine (isRunning isResponsive : bool) : list Arg :=
  if isRunning && isResponsive then
    [Str (colorize "Status:" "cyan"); Str (colorize "RUNNING" "green")]
  else if isRunning && negb isResponsive then
    [Str (colorize "Status:" "cyan"); Str (colorize "STARTING" "yellow")]
  else
    [Str (colorize "Status:" "cyan"); Str (colorize "STOPPED" "red")].

(** The idle line, by the idle time.  [idleMinutes >= timeoutMinutes *
    0.75] is compared on integers as [4 * idleMinutes >= 3 *
    timeoutMinutes]. *)
Definition idleLine (idleTime : Z) : list Arg :=
  let idleTimeStr := dec (idleMinutes idleTime) +:+ "m "
                     +:+ dec (idleSeconds idleTime) +:+ "s" in
  if idleMinutes idleTime >=? timeoutMinutes then
    [Str (colorize "Idle Time:" "cyan"); Str (colorize idleTimeStr "red");
     Str "(will shutdown)"]
  else if 4 * idleMinutes idleTime >=? 3 * timeoutMinutes then
    [Str (colorize "Idle Time:" "cyan"); Str (colorize idleTimeStr "yellow");
     Str ("(" +:+ dec (timeoutMinutes - idleMinutes idleTime)
          +:+ "m until timeout)")]
  else
    [Str (colorize "Idle Time:" "cyan"); Str (colorize idleTimeStr "green")].

Definition statusHeader : list (list Arg) :=
  [[Str (bold (String "010" "CSharpier Server Status"))];
   [Str (repeat_string "═" 50)]].

Definition showStatus : M OS (list (list Arg)) :=
  state <- loadState ;;
  match state with
  | None =>
      ret (statusHeader ++
           [[Str (colorize "Status:" "cyan"); Str (colorize "NOT RUNNING" "red")];
            [Str (String "010" "No server is currently active.")];
            [Str "The server will start automatically on the first format request."]])
  | Some state =>
      isRunning <- isProcessRunning (pid state) ;;
      isResponsive <- (if isRunning : bool then isServerResponsive (port state)
                       else ret false) ;;
      now <- Date_now ;;
      let idleTime := now - lastAccess state in
      ret (statusHeader ++
           [statusLine isRunning isResponsive;
            [Str (colorize "PID:" "cyan"); Num (pid state)];
            [Str (colorize "Port:" "cyan"); Num (port state)];
            [Str (colorize "Last Access:" "cyan");
             Str (toLocaleString (lastAccess state))];
            idleLine idleTime;
            [Str (colorize "State File:" "cyan"); Str STATE_FILE];
            [Str (colorize "Lock File:" "cyan"); Str LOCK_FILE];
            [Str (colorize "Idle Timeout:" "cyan");
             Str (dec timeoutMinutes +:+ " minutes")];
            [Str ""]])
  end.

(** *** [main]

    [arg] is [process.argv[2]], absent or a string; [input] is what
    standard input holds, decoded.  [process.exit(n)] ends the
    invocation with status [n]; an invocation that runs to its end has
    status 0. *)
Definition main (arg : option string) (input : string) : M OS Finished :=
  if bool_decide (arg = Some "--help"%string) || bool_decide (arg = Some "-h"%string)
  then ret (mkFinished 0 (map Log showHelp))
  else if bool_decide (arg = Some "--status"%string) then
    lines <- showStatus ;;
    ret (mkFinished 0 (map Log lines))
  else if bool_decide (arg = Some "--stop"%string) then
    stopServer ;;
    ret (mkFinished 0 [])
  else if bool_decide (arg = Some "--start"%string) then
    ensureServer ;;
    console_error "CSharpier server is ready" ;;
    ret (mkFinished 0 [])
  else
    let fileName := arg in
    if falsy fileName then
      console_error "Usage: csharpierd <filename> < input.cs" ;;
      console_error "Try 'csharpierd --help' for more information" ;;
      ret (mkFinished 1 [])
    else
      let fileContents := input in
      if falsy (Some fileContents) then
        console_error "Error: No input provided via stdin" ;;
        ret (mkFinished 1 [])
      else
        formatted <- formatCode (default EmptyString fileName) fileContents ;;
        ret (mkFinished 0 [Written formatted]).

(** [main().catch(...)], the last statement of the file. *)
Definition toplevel (arg : option string) (input : string) : M OS Finished :=
  try_catch (main arg input)
    (fun error =>
       emit (EvConsole "Fatal error:" (Some error)) ;;
       ret (mkFinished 1 [])).

End Cli.

(** ** Reading a run *)

(** The completion of [m] started in [w], and the world it leaves. *)
Definition result {OS A} (m : M OS A) (w : World OS) : Outcome A := fst (m w).
Definition after {OS A} (m : M OS A) (w : World OS) : World OS := snd (m w).

(** [w] with one more event in its trace. *)
Definition logged {OS} (e : Event) (w : World OS) : World OS :=
  mkWorld (os w) (files w) (e :: trace w).

(** The descriptor the state file holds, if it holds one. *)
Definition stored {OS} (w : World OS) : option ServerState :=
  match files w !! STATE_FILE with
  | Some (mkFile _ (StateJson st)) => Some st
  | _ => None
  end.

(** Text that is no JSON document, by a test on the safe side: text
    that opens an object with a brace and has no closing brace after it,
    as a write that was cut short leaves. *)
Fixpoint has_char (c : ascii) (s : string) : bool :=
  match s with
  | EmptyString => false
  | String c' s' => Ascii.eqb c c' || has_char c s'
  end.

Definition unparsable (s : string) : bool :=
  match s with
  | EmptyString => false
  | String c rest => Ascii.eqb c "{" && negb (has_char "}" rest)
  end.

(** The state file is missing, or holds text that does not parse. *)
Definition state_unreadable {OS} (w : World OS) : Prop :=
  files w !! STATE_FILE = None \/
  exists m s, files w !! STATE_FILE = Some (mkFile m (Text s)) /\ unparsable s = true.

(** What the two probes see in a platform state. *)
Definition alive {OS} `{Platform OS} (o : OS) (p : Z) : bool :=
  kill0 o p =? 0.

Definition responsive {OS} `{Platform OS} (o : OS) (p : Z) : bool :=
  match http_get o p with
  | Responded r => ok r || (code r =? 404)
  | _ => false
  end.

(** The platform after [n] sleeps of the readiness loop. *)
Fixpoint slept {OS} `{Platform OS} (n : nat) (o : OS) : OS :=
  match n with
  | O => o
  | S n' => slept n' (sleep 200 o)
  end.

(** The events of [n] rounds of the readiness loop, most recent first. *)
Fixpoint pollEvents (n : nat) : list Event :=
  match n with
  | O => []
  | S n' => EvGet SERVER_PORT :: EvSleep 200 :: pollEvents n'
  end.

(** The argument vector of the server. *)
Definition server_argv : list string :=
  ["dotnet"; "csharpier"; "server"; "--server-port"; dec SERVER_PORT]%string.

(** The last line of a successful [startServer] and the error of a
    failed one. *)
Definition started (child : Z) : Event :=
  EvConsole ("CSharpier server started with PID " +:+ dec child) None.

Definition timeout_error : Exn := Error "Server failed to start within timeout".

(** [w] once [releaseLock] has run. *)
Definition released {OS} (w : World OS) : World OS :=
  mkWorld (os w) (delete LOCK_FILE (files w))
          (EvShell (RmF [LOCK_FILE]) :: trace w).

(** ** Two sentences of the specification, as they are written

    Each is stated here for one world, to be tried on concrete ones. *)

(** An idle-expired descriptor is reaped and replaced: the pid is
    stopped, a server is spawned, and a descriptor of the new server with
    the current time is saved and returned. *)
Definition idle_reap_as_stated {OS} `{Platform OS} (w : World OS) : Prop :=
  forall d,
    stored w = Some d ->
    clock (os w) - lastAccess d > IDLE_TIMEOUT_MS ->
    let w' := after ensureServer w in
    exists child,
      In (EvShell (Kill SIGTERM (pid d))) (trace w') /\
      In (EvSpawn server_argv child) (trace w') /\
      result ensureServer w = Ok (mkState child SERVER_PORT (clock (os w'))) /\
      stored w' = Some (mkState child SERVER_PORT (clock (os w'))).

(** [formatCode] fails exactly when the backend answers with a status
    that is not 2xx or with a body that has no formatted file. *)
Definition fails_exactly_as_stated {OS} `{Platform OS} (w : World OS)
    (name contents : string) : Prop :=
  forall st r o2 v,
    result ensureServer w = Ok st ->
    http_post (port st) (mkRequest (filePath name) contents)
              (os (after ensureServer w)) = (Responded r, o2) ->
    body_json r = Some v ->
    ((exists e, result (formatCode name contents) w = Throw e) <->
     (ok r = false \/ formattedFile v = None)).

(** ** A scripted platform

    [Sim] plays a fixed script: which pids the process table holds and
    what each port answers are functions of the wall clock, which only
    [Bun.sleep] advances.  Signals are delivered (exit status 0) exactly
    to the pids the table holds; what becomes of the process is in the
    script. *)
Record Sim := mkSim {
  sim_clock : Z;
  sim_alive : Z -> Z -> bool;
  sim_root : Z -> Z -> FetchOutcome;
  sim_format : Z -> FormatRequest -> FetchOutcome;
  sim_child : Z
}.

Definition sim_status (s : Sim) (p : Z) : Z :=
  if sim_alive s (sim_clock s) p then 0 else 1.

#[export] Instance SimPlatform : Platform Sim := {|
  clock := sim_clock;
  sleep ms s :=
    mkSim (sim_clock s + ms) (sim_alive s) (sim_root s) (sim_format s)
          (sim_child s);
  kill0 := sim_status;
  kill _ p s := (sim_status s p, s);
  spawn _ s := (sim_child s, s);
  http_get s p := sim_root s (sim_clock s) p;
  http_post p rq s := (sim_format s p rq, s);
  process_pid := 777;
  process_cwd := "/home/dev/project";
  path_isAbsolute name := match name with String ("/"%char) _ => true | _ => false end;
  path_join dir name := dir +:+ "/" +:+ name
|}.

(** A terminal without colours that prints a date as its epoch
    milliseconds. *)
#[export] Instance PlainTerminal : Terminal := {|
  Bun_color _ := EmptyString;
  toLocaleString := dec
|}.

Definition simWorld (s : Sim) (fs : list (string * File)) : World Sim :=
  mkWorld s (list_to_map fs) [].

Definition t0 : Z := 1700000000000.

(** Responses without and with a JSON body. *)
Definition plain (n : Z) (txt : string) : FetchOutcome :=
  Responded (mkResponse n txt None).

Definition json (v : FormatResult) : FetchOutcome :=
  Responded (mkResponse 200 "{...}" (Some v)).

(** A backend that echoes the contents back as the formatted file. *)
Definition echo (p : Z) (rq : FormatRequest) : FetchOutcome :=
  json (mkResult (Some (fileContents rq)) None Formatted).

(** A server, pid 4242, that is and stays up on the fixed port, whatever
    it is sent; the pid a spawn gives is 5000. *)
Definition sim_up (root : Z) (format : Z -> FormatRequest -> FetchOutcome) : Sim :=
  mkSim t0 (fun _ p => p =? 4242)
        (fun _ p => if p =? SERVER_PORT then plain root "" else NetworkError)
        format 5000.

(** A server, pid 4242, that exits within the grace period of a SIGTERM
    sent at [t0]; the replacement, pid 5000, answers from [ready] on, or
    never. *)
Definition sim_restart (ready : option Z) : Sim :=
  mkSim t0
        (fun t p => if p =? 4242 then t <? t0 + 500 else p =? 5000)
        (fun t p =>
           match ready with
           | Some r => if (p =? SERVER_PORT) && (r <=? t) then plain 200 "" else NetworkError
           | None => NetworkError
           end)
        echo 5000.

Definition state_file (last : Z) : string * File :=
  (STATE_FILE, mkFile last (StateJson (mkState 4242 SERVER_PORT last))).

Definition lock_file (at_ : Z) : string * File :=
  (LOCK_FILE, mkFile at_ (Text "4711")).

(** Worlds: a recently used healthy server; the same behind each kind of
    lock marker; an idle-expired descriptor whose server dies and is
    replaced, dies and is not replaced, or survives; no descriptor and a
    server that never comes up; backends that answer a format request
    with an error message, with an empty formatted file, with status 500;
    a root path that answers 500. *)
Definition w_healthy : World Sim :=
  simWorld (sim_up 200 echo) [state_file (t0 - 1000)].
Definition w_stale_lock : World Sim :=
  simWorld (sim_up 200 echo) [state_file (t0 - 1000); lock_file (t0 - 10001)].
Definition w_held_lock : World Sim :=
  simWorld (sim_up 200 echo) [state_file (t0 - 1000); lock_file (t0 - 10000)].
Definition w_idle_restart : World Sim :=
  simWorld (sim_restart (Some (t0 + 900))) [state_file (t0 - 3600001)].
Definition w_idle_no_start : World Sim :=
  simWorld (sim_restart None) [state_file (t0 - 3600001)].
Definition w_idle_survivor : World Sim :=
  simWorld (sim_up 200 echo) [state_file (t0 - 3600001)].
Definition w_cold_dead : World Sim :=
  simWorld (sim_restart None) [].
Definition w_parse_error : World Sim :=
  simWorld (sim_up 200 (fun _ _ => json (mkResult None (Some "parse error"%string) Failed)))
           [state_file (t0 - 1000)].
Definition w_blank : World Sim :=
  simWorld (sim_up 200 (fun _ _ => json (mkResult (Some ""%string) None Formatted)))
           [state_file (t0 - 1000)].
Definition w_backend_500 : World Sim :=
  simWorld (sim_up 200 (fun _ _ => plain 500 "Internal Server Error"))
           [state_file (t0 - 1000)].
Definition w_root_500 : World Sim :=
  simWorld (sim_up 500 echo) [state_file (t0 - 1000)].

(** More worlds: a descriptor whose pid, 999, is not in the process
    table; a descriptor whose server is alive and does not answer; a
    state file that does not parse; a lock marker written this instant;
    a descriptor that has been idle for exactly one hour. *)
Definition w_dead_pid : World Sim :=
  simWorld (sim_restart (Some (t0 + 400)))
           [(STATE_FILE, mkFile (t0 - 1000) (StateJson (mkState 999 SERVER_PORT (t0 - 1000))))].
Definition w_unresponsive : World Sim :=
  simWorld (sim_restart (Some (t0 + 900))) [state_file (t0 - 1000)].
Definition w_corrupt : World Sim :=
  simWorld (sim_restart (Some (t0 + 200))) [(STATE_FILE, mkFile (t0 - 1000) (Text "{"))].
Definition w_fresh_lock : World Sim :=
  simWorld (sim_up 200 echo) [state_file (t0 - 1000); lock_file t0].
Definition w_one_hour : World Sim :=
  simWorld (sim_up 200 echo) [state_file (t0 - 3600000)].

(** The platform after [n] sleeps of the lock loop. *)
Fixpoint waited {OS} `{Platform OS} (n : nat) (o : OS) : OS :=
  match n with
  | O => o
  | S n' => waited n' (sleep 100 o)
  end.

(** The arguments [main] takes for flags. *)
Definition flags : list string :=
  ["--help"; "-h"; "--status"; "--stop"; "--start"]%string.

(** ** Equations of the effects *)

Section Facts.
Context {OS : Type} `{Platform OS}.

Lemma bind_ok {A B} (m : M OS A) (k : A -> M OS B) w a w' :
  m w = (Ok a, w') -> bind m k w = k a w'.
Proof. intros E. unfold bind. now rewrite E. Qed.

Lemma bind_throw {A B} (m : M OS A) (k : A -> M OS B) w e w' :
  m w = (Throw e, w') -> bind m k w = (Throw e, w').
Proof. intros E. unfold bind. now rewrite E. Qed.

Lemma rm_f_eq paths (w : World OS) :
  sh (RmF paths) w =
  (Ok 0, mkWorld (os w) (foldr delete (files w) paths)
                 (EvShell (RmF paths) :: trace w)).
Proof. reflexivity. Qed.

Lemma releaseLock_eq (w : World OS) :
  releaseLock w =
  (Ok tt, mkWorld (os w) (delete LOCK_FILE (files w))
                  (EvShell (RmF [LOCK_FILE]) :: trace w)).
Proof. reflexivity. Qed.

(** *** [acquireLock] *)

Lemma acquireLock_free (w : World OS) :
  files w !! LOCK_FILE = None ->
  acquireLock w =
  (Ok true,
   mkWorld (os w)
           (<[LOCK_FILE := mkFile (clock (os w)) (Text (dec process_pid))]> (files w))
           (EvWrite LOCK_FILE (Text (dec process_pid)) :: trace w)).
Proof.
  intros E. unfold acquireLock, try_catch, bind, file_exists.
  rewrite E. reflexivity.
Qed.

Lemma acquireLock_stale (w : World OS) f :
  files w !! LOCK_FILE = Some f ->
  clock (os w) - mtime f > 10000 ->
  acquireLock w =
  (Ok true,
   mkWorld (os w)
           (<[LOCK_FILE := mkFile (clock (os w)) (Text (dec process_pid))]>
              (delete LOCK_FILE (files w)))
           (EvWrite LOCK_FILE (Text (dec process_pid))
              :: EvShell (RmF [LOCK_FILE]) :: trace w)).
Proof.
  intros E Hold. unfold acquireLock, try_catch, bind, file_exists, file_stat, Date_now.
  rewrite E. simpl. rewrite E.
  replace (clock (os w) - mtime f >? 10000) with true by (symmetry; apply Z.gtb_lt; lia).
  reflexivity.
Qed.

Lemma acquireLock_held (w : World OS) f :
  files w !! LOCK_FILE = Some f ->
  clock (os w) - mtime f <= 10000 ->
  acquireLock w = (Ok false, w).
Proof.
  intros E Hyoung. unfold acquireLock, try_catch, bind, file_exists, file_stat, Date_now.
  rewrite E. simpl. rewrite E.
  replace (clock (os w) - mtime f >? 10000) with false
    by (symmetry; rewrite Z.gtb_ltb; apply Z.ltb_ge; lia).
  reflexivity.
Qed.

(** *** The state store and the probes *)

Lemma loadState_eq (w : World OS) : loadState w = (Ok (stored w), w).
Proof.
  unfold loadState, try_catch, bind, file_exists, file_json, stored.
  destruct (files w !! STATE_FILE) as [[m [s|st]]|] eqn:E; simpl; rewrite ?E; reflexivity.
Qed.

Lemma saveState_eq st (w : World OS) :
  saveState st w =
  (Ok tt, mkWorld (os w) (<[STATE_FILE := mkFile (clock (os w)) (StateJson st)]> (files w))
                  (EvWrite STATE_FILE (StateJson st) :: trace w)).
Proof. reflexivity. Qed.

Lemma isProcessRunning_eq p (w : World OS) :
  isProcessRunning p w = (Ok (alive (os w) p), logged (EvShell (KillProbe p)) w).
Proof.
  unfold isProcessRunning, try_catch, sh, run, bind, alive, logged. simpl.
  destruct (kill0 (os w) p =? 0) eqn:E; simpl; rewrite ?E; reflexivity.
Qed.

Lemma isServerResponsive_eq p (w : World OS) :
  isServerResponsive p w = (Ok (responsive (os w) p), logged (EvGet p) w).
Proof.
  unfold isServerResponsive, try_catch, bind, fetch_get, responsive, logged.
  destruct (http_get (os w) p); reflexivity.
Qed.

(** *** [killServer] *)

Lemma killServer_ok p (w : World OS) : result (killServer p) w = Ok tt.
Proof.
  unfold result, killServer, try_catch, sh, run, bind, Bun_sleep.
  destruct (kill SIGTERM p (os w)) as [rc o] eqn:E1.
  destruct (rc =? 0); simpl; [|reflexivity].
  rewrite isProcessRunning_eq.
  destruct (alive _ p); simpl; [|reflexivity].
  destruct (kill SIGKILL p _) as [rc2 o2].
  destruct (rc2 =? 0); reflexivity.
Qed.

Lemma killServer_files p (w : World OS) : files (after (killServer p) w) = files w.
Proof.
  unfold after, killServer, try_catch, sh, run, bind, Bun_sleep.
  destruct (kill SIGTERM p (os w)) as [rc o] eqn:E1.
  destruct (rc =? 0); simpl; [|reflexivity].
  rewrite isProcessRunning_eq.
  destruct (alive _ p); simpl; [|reflexivity].
  destruct (kill SIGKILL p _) as [rc2 o2].
  destruct (rc2 =? 0); reflexivity.
Qed.

(** The first thing [killServer] does is to send SIGTERM. *)
Lemma killServer_trace p (w : World OS) :
  exists tr, trace (after (killServer p) w) = tr ++ EvShell (Kill SIGTERM p) :: trace w.
Proof.
  unfold after, killServer, try_catch, sh, run, bind, Bun_sleep.
  destruct (kill SIGTERM p (os w)) as [rc o] eqn:E1.
  destruct (rc =? 0); simpl; [|now exists []].
  rewrite isProcessRunning_eq.
  destruct (alive _ p); simpl.
  - destruct (kill SIGKILL p _) as [rc2 o2].
    destruct (rc2 =? 0); simpl;
      now exists [EvShell (Kill SIGKILL p); EvShell (KillProbe p); EvSleep 500].
  - now exists [EvShell (KillProbe p); EvSleep 500].
Qed.

Lemma killServer_eq p (w : World OS) :
  killServer p w = (Ok tt, after (killServer p) w).
Proof.
  pose proof (killServer_ok p w) as E. unfold result, after in *.
  destruct (killServer p w) as [r w']. simpl in *. now subst.
Qed.

(** *** [cleanupIdleServer] *)

Lemma cleanupIdleServer_fresh d (w : World OS) :
  clock (os w) - lastAccess d <= IDLE_TIMEOUT_MS ->
  cleanupIdleServer d w = (Ok tt, w).
Proof.
  intros Hle. unfold cleanupIdleServer, bind, Date_now.
  replace (clock (os w) - lastAccess d >? IDLE_TIMEOUT_MS) with false
    by (symmetry; rewrite Z.gtb_ltb; apply Z.ltb_ge; lia).
  reflexivity.
Qed.

Lemma cleanupIdleServer_idle d (w : World OS) :
  clock (os w) - lastAccess d > IDLE_TIMEOUT_MS ->
  let w1 := logged (EvConsole ("Server idle for "
                               +:+ dec ((clock (os w) - lastAccess d) / 1000)
                               +:+ "s, shutting down...") None) w in
  let w2 := after (killServer (pid d)) w1 in
  cleanupIdleServer d w =
  (Ok tt, mkWorld (os w2) (delete STATE_FILE (files w))
                  (EvShell (RmF [STATE_FILE]) :: trace w2)).
Proof.
  intros Hgt w1 w2. unfold cleanupIdleServer, bind at 1, Date_now.
  replace (clock (os w) - lastAccess d >? IDLE_TIMEOUT_MS) with true
    by (symmetry; apply Z.gtb_lt; lia).
  unfold bind at 1. unfold console_error, emit. fold w1.
  rewrite (bind_ok _ _ _ _ _ (killServer_eq (pid d) w1)). fold w2.
  unfold bind. rewrite rm_f_eq. unfold ret. simpl.
  unfold w2 at 2. rewrite killServer_files. reflexivity.
Qed.

(** *** The readiness loop *)

Lemma pollEvents_shift n (tr : list Event) :
  pollEvents n ++ EvGet SERVER_PORT :: EvSleep 200 :: tr =
  EvGet SERVER_PORT :: EvSleep 200 :: pollEvents n ++ tr.
Proof.
  induction n as [|n IH]; [reflexivity|].
  cbn [pollEvents app]. now rewrite IH.
Qed.

Lemma awaitReady_first n child (w : World OS) k :
  (k < n)%nat ->
  (forall j, (j < k)%nat -> responsive (slept (S j) (os w)) SERVER_PORT = false) ->
  responsive (slept (S k) (os w)) SERVER_PORT = true ->
  awaitReady n child w =
  (Ok child, mkWorld (slept (S k) (os w)) (files w)
                     (started child :: pollEvents (S k) ++ trace w)).
Proof.
  revert w k. induction n as [|n IH]; intros w k Hk Hno Hyes; [lia|].
  cbn [awaitReady]. unfold bind at 1, Bun_sleep.
  unfold bind at 1. rewrite isServerResponsive_eq. cbn [os logged files trace].
  destruct k as [|k].
  - cbn [slept] in Hyes. rewrite Hyes. reflexivity.
  - pose proof (Hno O ltac:(lia)) as E0. cbn [slept] in E0. rewrite E0.
    rewrite (IH _ k); [|lia| |exact Hyes].
    + unfold logged. cbn [os files trace slept]. now rewrite pollEvents_shift.
    + intros j Hj. apply (Hno (S j)). lia.
Qed.

Lemma awaitReady_never n child (w : World OS) :
  (forall j, (j < n)%nat -> responsive (slept (S j) (os w)) SERVER_PORT = false) ->
  awaitReady n child w =
  (Throw timeout_error,
   mkWorld (slept n (os w)) (files w) (pollEvents n ++ trace w)).
Proof.
  revert w. induction n as [|n IH]; intros w Hno.
  - destruct w; reflexivity.
  - cbn [awaitReady]. unfold bind at 1, Bun_sleep.
    unfold bind at 1. rewrite isServerResponsive_eq. cbn [os logged files trace].
    pose proof (Hno O ltac:(lia)) as E0. cbn [slept] in E0. rewrite E0.
    rewrite IH.
    + unfold logged. cbn [os files trace slept]. now rewrite pollEvents_shift.
    + intros j Hj. apply (Hno (S j)). lia.
Qed.

(** Either some round is the first to find the port responsive, or none
    of the [n] rounds does. *)
Lemma first_responsive n (o : OS) :
  (exists k, (k < n)%nat /\
     (forall j, (j < k)%nat -> responsive (slept (S j) o) SERVER_PORT = false) /\
     responsive (slept (S k) o) SERVER_PORT = true) \/
  (forall j, (j < n)%nat -> responsive (slept (S j) o) SERVER_PORT = false).
Proof.
  induction n as [|n [(k & Hk & Hno & Hyes)|Hnone]].
  - right. intros j Hj. lia.
  - left. exists k. repeat split; [lia|exact Hno|exact Hyes].
  - destruct (responsive (slept (S n) o) SERVER_PORT) eqn:E.
    + left. exists n. repeat split; [lia|exact Hnone|exact E].
    + right. intros j Hj. destruct (Nat.eq_dec j n) as [->|Hne]; [exact E|].
      apply Hnone. lia.
Qed.

Lemma startServer_eq (w : World OS) :
  startServer w =
  awaitReady 50 (fst (spawn server_argv (os w)))
    (mkWorld (snd (spawn server_argv (os w))) (files w)
       (EvSpawn server_argv (fst (spawn server_argv (os w)))
          :: EvConsole "Starting CSharpier server..." None :: trace w)).
Proof.
  unfold startServer, bind, console_error, emit, Bun_spawn. cbn [os files trace].
  fold server_argv. destruct (spawn server_argv (os w)). reflexivity.
Qed.

Lemma startServer_files (w : World OS) : files (after startServer w) = files w.
Proof.
  unfold after. rewrite startServer_eq.
  set (w1 := mkWorld _ _ _). set (child := fst _).
  destruct (first_responsive 50 (os w1)) as [(k & Hk & Hno & Hyes)|Hnone].
  - rewrite (awaitReady_first _ _ _ k Hk Hno Hyes). reflexivity.
  - rewrite (awaitReady_never _ _ _ Hnone). reflexivity.
Qed.

(** *** The lock loop *)

Lemma acquireLock_cases (w : World OS) :
  exists b fs tr,
    acquireLock w = (Ok b, mkWorld (os w) fs tr) /\
    forall path, path <> LOCK_FILE -> fs !! path = files w !! path.
Proof.
  destruct (files w !! LOCK_FILE) as [f|] eqn:E.
  - destruct (Z_gt_le_dec (clock (os w) - mtime f) 10000) as [Hold|Hyoung].
    + rewrite (acquireLock_stale w f E Hold). do 3 eexists. split; [reflexivity|].
      intros path Hne. rewrite lookup_insert_ne, lookup_delete_ne; congruence.
    + rewrite (acquireLock_held w f E Hyoung). exists false, (files w), (trace w).
      split; [now destruct w|reflexivity].
  - rewrite (acquireLock_free w E). do 3 eexists. split; [reflexivity|].
    intros path Hne. rewrite lookup_insert_ne; congruence.
Qed.

Lemma lockAttempts_ok n (w : World OS) : result (lockAttempts n) w = Ok tt.
Proof.
  revert w. induction n as [|n IH]; intros w; [reflexivity|].
  unfold result in *. cbn [lockAttempts]. unfold bind at 1.
  destruct (acquireLock_cases w) as (b & fs & tr & -> & _).
  destruct b; [reflexivity|].
  unfold bind, Bun_sleep. apply IH.
Qed.

Lemma lockAttempts_eq n (w : World OS) :
  lockAttempts n w = (Ok tt, after (lockAttempts n) w).
Proof.
  pose proof (lockAttempts_ok n w) as E. unfold result, after in *.
  destruct (lockAttempts n w) as [r w']. simpl in *. now subst.
Qed.

(** The lock loop touches no file but the lock marker. *)
Lemma lockAttempts_files n (w : World OS) path :
  path <> LOCK_FILE ->
  files (after (lockAttempts n) w) !! path = files w !! path.
Proof.
  intros Hne. revert w. induction n as [|n IH]; intros w; [reflexivity|].
  unfold after in *. cbn [lockAttempts]. unfold bind at 1.
  destruct (acquireLock_cases w) as (b & fs & tr & -> & Hfs).
  destruct b; [now apply Hfs|].
  unfold bind, Bun_sleep. cbn [os files trace]. rewrite IH. now apply Hfs.
Qed.

Lemma lockAttempts_stored n (w : World OS) :
  stored (after (lockAttempts n) w) = stored w.
Proof. unfold stored. now rewrite lockAttempts_files. Qed.

(** With no marker in the way the first attempt takes the lock. *)
Lemma lockAttempts_free n (w : World OS) :
  files w !! LOCK_FILE = None ->
  os (after (lockAttempts (S n)) w) = os w.
Proof.
  intros E. unfold after. cbn [lockAttempts]. unfold bind.
  rewrite (acquireLock_free w E). reflexivity.
Qed.

(** *** [ensureServer]: the lock loop, the [try] block, the release *)

Lemma ensureServer_eq (w : World OS) :
  ensureServer w =
  (result criticalSection (after (lockAttempts 5) w),
   released (after criticalSection (after (lockAttempts 5) w))).
Proof.
  unfold ensureServer. rewrite (bind_ok _ _ _ _ _ (lockAttempts_eq 5 w)).
  unfold try_finally, result, after.
  destruct (criticalSection _) as [r w2]. rewrite releaseLock_eq. reflexivity.
Qed.

End Facts.

(** ** The paths of the [try] block *)

Section Paths.
Context {OS : Type} `{Platform OS}.

Lemma probe_true p (w : World OS) :
  result (isProcessRunning p) w = Ok true <-> alive (os w) p = true.
Proof.
  unfold result. rewrite isProcessRunning_eq. simpl.
  split; [now intros [= ->]|now intros ->].
Qed.

Lemma poll_true p (w : World OS) :
  result (isServerResponsive p) w = Ok true <-> responsive (os w) p = true.
Proof.
  unfold result. rewrite isServerResponsive_eq. simpl.
  split; [now intros [= ->]|now intros ->].
Qed.

(** The health check of [reuseServer], after the cleanup. *)
Lemma reuseServer_reuse d (w : World OS) :
  let w2 := after (cleanupIdleServer d) w in
  alive (os w2) (pid d) = true ->
  responsive (os w2) (port d) = true ->
  reuseServer d w =
  (Ok (Some d), logged (EvGet (port d)) (logged (EvShell (KillProbe (pid d))) w2)).
Proof.
  intros w2 Ha Hr. unfold reuseServer, bind at 1.
  assert (E : cleanupIdleServer d w = (Ok tt, w2)).
  { destruct (Z_gt_le_dec (clock (os w) - lastAccess d) IDLE_TIMEOUT_MS) as [Hi|Hf].
    - unfold w2, after. now rewrite (cleanupIdleServer_idle d w Hi).
    - unfold w2, after. now rewrite (cleanupIdleServer_fresh d w Hf). }
  rewrite E. unfold bind at 1. rewrite isProcessRunning_eq, Ha.
  unfold bind at 1. rewrite isServerResponsive_eq. cbn [os logged]. rewrite Hr.
  reflexivity.
Qed.

Lemma cleanupIdleServer_eq d (w : World OS) :
  cleanupIdleServer d w = (Ok tt, after (cleanupIdleServer d) w).
Proof.
  destruct (Z_gt_le_dec (clock (os w) - lastAccess d) IDLE_TIMEOUT_MS) as [Hi|Hf].
  - unfold after. now rewrite (cleanupIdleServer_idle d w Hi).
  - unfold after. now rewrite (cleanupIdleServer_fresh d w Hf).
Qed.

Lemma cleanupIdleServer_reaps d (w : World OS) :
  clock (os w) - lastAccess d > IDLE_TIMEOUT_MS ->
  let w2 := after (cleanupIdleServer d) w in
  In (EvShell (Kill SIGTERM (pid d))) (trace w2) /\
  In (EvShell (RmF [STATE_FILE])) (trace w2) /\
  files w2 = delete STATE_FILE (files w).
Proof.
  intros Hi w2. unfold w2, after. rewrite (cleanupIdleServer_idle d w Hi).
  cbn [snd trace files]. repeat split.
  - right. destruct (killServer_trace (pid d)
      (logged (EvConsole ("Server idle for "
                          +:+ dec ((clock (os w) - lastAccess d) / 1000)
                          +:+ "s, shutting down...") None) w)) as [tr ->].
    apply in_or_app. right. now left.
  - now left.
Qed.

(** When the health check fails the block falls through, and its files
    are those the cleanup left. *)
Lemma reuseServer_fallthrough d (w3 : World OS) :
  exists w4,
    (console_error "Server process not found or not responsive, restarting..." ;;
     still <- isProcessRunning (pid d) ;;
     (if still : bool then killServer (pid d) else ret tt) ;;
     ret (@None ServerState)) w3 = (Ok None, w4) /\
    files w4 = files w3.
Proof.
  unfold console_error, emit. unfold bind at 1.
  unfold bind at 1. rewrite isProcessRunning_eq.
  destruct (alive _ _).
  - unfold bind. rewrite killServer_eq. eexists. split; [reflexivity|].
    now rewrite killServer_files.
  - eexists. split; reflexivity.
Qed.

Lemma reuseServer_restart d (w : World OS) :
  let w2 := after (cleanupIdleServer d) w in
  alive (os w2) (pid d) && responsive (os w2) (port d) = false ->
  result (reuseServer d) w = Ok None /\
  files (after (reuseServer d) w) = files w2.
Proof.
  intros w2 Hbad.
  assert (E : exists w4, reuseServer d w = (Ok None, w4) /\ files w4 = files w2).
  { unfold reuseServer. unfold bind at 1.
    rewrite (cleanupIdleServer_eq d w). fold w2.
    unfold bind at 1. rewrite isProcessRunning_eq.
    destruct (alive (os w2) (pid d)) eqn:Ha.
    - unfold bind at 1. rewrite isServerResponsive_eq. cbn [os logged].
      simpl in Hbad. rewrite Hbad.
      destruct (reuseServer_fallthrough d
                  (mkWorld (os w2) (files w2)
                     (EvGet (port d) :: EvShell (KillProbe (pid d)) :: trace w2)))
        as (w4 & E4 & F4).
      exists w4. split; [exact E4|exact F4].
    - unfold bind at 1. unfold ret at 1.
      destruct (reuseServer_fallthrough d (logged (EvShell (KillProbe (pid d))) w2))
        as (w4 & E4 & F4).
      exists w4. split; [exact E4|exact F4]. }
  destruct E as (w4 & E4 & F4). unfold result, after. rewrite E4. now split.
Qed.

Lemma knownServer_some d (w : World OS) :
  stored w = Some d -> knownServer w = reuseServer d w.
Proof. intros E. unfold knownServer, bind. now rewrite loadState_eq, E. Qed.

Lemma knownServer_none (w : World OS) :
  stored w = None -> knownServer w = (Ok None, w).
Proof. intros E. unfold knownServer, bind. now rewrite loadState_eq, E. Qed.

Lemma startFresh_ok child (w : World OS) :
  result startServer w = Ok child ->
  let w1 := after startServer w in
  let fresh := mkState child SERVER_PORT (clock (os w1)) in
  startFresh w =
  (Ok fresh,
   mkWorld (os w1) (<[STATE_FILE := mkFile (clock (os w1)) (StateJson fresh)]> (files w))
           (EvWrite STATE_FILE (StateJson fresh) :: trace w1)).
Proof.
  intros E. cbv zeta. unfold startFresh, bind at 1.
  unfold result in E. unfold after.
  pose proof (startServer_files w) as Hf. unfold after in Hf.
  destruct (startServer w) as [r w']. simpl in *. subst r.
  unfold bind, Date_now. rewrite saveState_eq. simpl. now rewrite Hf.
Qed.

Lemma startFresh_throw e (w : World OS) :
  result startServer w = Throw e ->
  startFresh w = (Throw e, after startServer w).
Proof.
  intros E. unfold startFresh, bind at 1. unfold result, after in *.
  destruct (startServer w) as [r w']. simpl in *. now subst r.
Qed.

End Paths.

(** ** The orchestrator *)

Section Orchestrator.
Context {OS : Type} `{Platform OS}.

Lemma paths_differ : STATE_FILE <> LOCK_FILE.
Proof. discriminate. Qed.

Lemma released_state_file (w : World OS) :
  files (released w) !! STATE_FILE = files w !! STATE_FILE.
Proof. unfold released. cbn [files]. apply lookup_delete_ne. intros E. now apply paths_differ. Qed.

Lemma released_stored (w : World OS) : stored (released w) = stored w.
Proof. unfold stored. now rewrite released_state_file. Qed.

Lemma released_lock (w : World OS) : files (released w) !! LOCK_FILE = None.
Proof. apply lookup_delete_eq. Qed.

(** Reuse: the descriptor that was loaded passes the health check that
    follows the cleanup. *)
Lemma ensureServer_reuse (w : World OS) d :
  let w1 := after (lockAttempts 5) w in
  let w2 := after (cleanupIdleServer d) w1 in
  stored w = Some d ->
  alive (os w2) (pid d) = true ->
  responsive (os w2) (port d) = true ->
  ensureServer w =
  (Ok d, released (logged (EvGet (port d)) (logged (EvShell (KillProbe (pid d))) w2))).
Proof.
  intros w1 w2 Hs Ha Hr. rewrite ensureServer_eq. fold w1.
  assert (E : criticalSection w1 =
              (Ok d, logged (EvGet (port d)) (logged (EvShell (KillProbe (pid d))) w2))).
  { unfold criticalSection, bind.
    rewrite (knownServer_some d w1) by (unfold w1; now rewrite lockAttempts_stored).
    now rewrite (reuseServer_reuse d w1 Ha Hr). }
  unfold result, after. now rewrite E.
Qed.

(** Restart: the health check that follows the cleanup fails, or there
    was no descriptor; [startServer] decides the completion. *)
Lemma ensureServer_restart (w : World OS) :
  let w1 := after (lockAttempts 5) w in
  result knownServer w1 = Ok None ->
  let w3 := after knownServer w1 in
  ensureServer w = (result startFresh w3, released (after startFresh w3)).
Proof.
  intros w1 Hk w3. rewrite ensureServer_eq. fold w1.
  unfold result, after in *. unfold criticalSection, bind. unfold w3.
  destruct (knownServer w1) as [r wk]. simpl in *. subst r.
  now destruct (startFresh wk).
Qed.

(** A [startServer] that returns has spawned what it returns. *)
Lemma startServer_spawns child (w : World OS) :
  result startServer w = Ok child ->
  In (EvSpawn server_argv child) (trace (after startServer w)).
Proof.
  unfold result, after. rewrite startServer_eq.
  set (w4 := mkWorld _ _ _). set (c := fst (spawn _ _)).
  destruct (first_responsive 50 (os w4)) as [(k & Hk & Hno & Hyes)|Hnever].
  - rewrite (awaitReady_first _ _ _ k Hk Hno Hyes). cbn [fst snd trace].
    intros E. assert (E' : c = child) by congruence. rewrite <- E'.
    right. apply in_or_app. right. now left.
  - rewrite (awaitReady_never _ _ _ Hnever). discriminate.
Qed.

End Orchestrator.

(** ** What a run adds to the trace *)

Section Traces.
Context {OS : Type} `{Platform OS}.

(** The reap of [cleanupIdleServer] adds the SIGTERM and the removal of
    the state file. *)
Lemma cleanupIdleServer_adds d (w : World OS) :
  clock (os w) - lastAccess d > IDLE_TIMEOUT_MS ->
  exists reap,
    trace (after (cleanupIdleServer d) w) = reap ++ trace w /\
    In (EvShell (Kill SIGTERM (pid d))) reap /\
    In (EvShell (RmF [STATE_FILE])) reap.
Proof.
  intros Hi. unfold after. rewrite (cleanupIdleServer_idle d w Hi). cbn [snd trace].
  destruct (killServer_trace (pid d)
    (logged (EvConsole ("Server idle for "
                        +:+ dec ((clock (os w) - lastAccess d) / 1000)
                        +:+ "s, shutting down...") None) w)) as [tr ->].
  cbn [logged trace].
  exists (EvShell (RmF [STATE_FILE]) :: tr ++
          [EvShell (Kill SIGTERM (pid d));
           EvConsole ("Server idle for "
                      +:+ dec ((clock (os w) - lastAccess d) / 1000)
                      +:+ "s, shutting down...") None]).
  split; [|split].
  - cbn [app]. now rewrite <- app_assoc.
  - right. apply in_or_app. right. now left.
  - now left.
Qed.

Lemma reuseServer_fallthrough_adds d (w3 : World OS) :
  exists w4 tr,
    (console_error "Server process not found or not responsive, restarting..." ;;
     still <- isProcessRunning (pid d) ;;
     (if still : bool then killServer (pid d) else ret tt) ;;
     ret (@None ServerState)) w3 = (Ok None, w4) /\
    trace w4 = tr ++ trace w3.
Proof.
  unfold console_error, emit. unfold bind at 1.
  unfold bind at 1. rewrite isProcessRunning_eq.
  destruct (alive _ _).
  - unfold bind. rewrite killServer_eq.
    destruct (killServer_trace (pid d)
      (logged (EvShell (KillProbe (pid d)))
         (mkWorld (os w3) (files w3)
            (EvConsole "Server process not found or not responsive, restarting..." None
               :: trace w3)))) as [tr Htr].
    eexists.
    exists (tr ++ [EvShell (Kill SIGTERM (pid d)); EvShell (KillProbe (pid d));
                   EvConsole "Server process not found or not responsive, restarting..." None]).
    split; [reflexivity|]. rewrite Htr. cbn [logged trace].
    now rewrite <- app_assoc.
  - exists (logged (EvShell (KillProbe (pid d)))
              (mkWorld (os w3) (files w3)
                 (EvConsole "Server process not found or not responsive, restarting..." None
                    :: trace w3))),
           [EvShell (KillProbe (pid d));
            EvConsole "Server process not found or not responsive, restarting..." None].
    split; reflexivity.
Qed.

(** Whatever the health check says, [reuseServer] goes on from the world
    the cleanup leaves. *)
Lemma reuseServer_adds d (w : World OS) :
  exists tr,
    trace (after (reuseServer d) w) = tr ++ trace (after (cleanupIdleServer d) w).
Proof.
  set (w2 := after (cleanupIdleServer d) w).
  assert (E : exists r w4 tr, reuseServer d w = (Ok r, w4) /\ trace w4 = tr ++ trace w2).
  { destruct (alive (os w2) (pid d) && responsive (os w2) (port d)) eqn:Hh.
    - apply andb_true_iff in Hh. destruct Hh as [Ha Hr].
      rewrite (reuseServer_reuse d w Ha Hr). fold w2.
      do 2 eexists. exists [EvGet (port d); EvShell (KillProbe (pid d))].
      split; reflexivity.
    - unfold reuseServer. unfold bind at 1.
      rewrite (cleanupIdleServer_eq d w). fold w2.
      unfold bind at 1. rewrite isProcessRunning_eq.
      destruct (alive (os w2) (pid d)) eqn:Ha.
      + unfold bind at 1. rewrite isServerResponsive_eq. cbn [os logged].
        simpl in Hh. rewrite Hh.
        destruct (reuseServer_fallthrough_adds d
                    (mkWorld (os w2) (files w2)
                       (EvGet (port d) :: EvShell (KillProbe (pid d)) :: trace w2)))
          as (w4 & tr & E4 & Htr).
        exists None, w4, (tr ++ [EvGet (port d); EvShell (KillProbe (pid d))]).
        split; [exact E4|]. rewrite Htr. cbn [trace]. now rewrite <- app_assoc.
      + unfold bind at 1. unfold ret at 1.
        destruct (reuseServer_fallthrough_adds d (logged (EvShell (KillProbe (pid d))) w2))
          as (w4 & tr & E4 & Htr).
        exists None, w4, (tr ++ [EvShell (KillProbe (pid d))]).
        split; [exact E4|]. rewrite Htr. cbn [logged trace]. now rewrite <- app_assoc. }
  destruct E as (r & w4 & tr & E & Htr). unfold after at 1. rewrite E.
  now exists tr.
Qed.

Lemma startFresh_adds (w : World OS) :
  exists tr, trace (after startFresh w) = tr ++ trace w.
Proof.
  assert (Hs : exists tr, trace (after startServer w) = tr ++ trace w).
  { unfold after. rewrite startServer_eq.
    set (w4 := mkWorld _ _ _). set (c := fst (spawn _ _)).
    destruct (first_responsive 50 (os w4)) as [(k & Hk & Hno & Hyes)|Hnever].
    - rewrite (awaitReady_first _ _ _ k Hk Hno Hyes). cbn [snd trace]. unfold w4.
      cbn [trace].
      exists (started c :: pollEvents (S k) ++
              [EvSpawn server_argv c; EvConsole "Starting CSharpier server..." None]).
      cbn [app]. rewrite <- app_assoc. reflexivity.
    - rewrite (awaitReady_never _ _ _ Hnever). cbn [snd trace]. unfold w4.
      cbn [trace].
      exists (pollEvents 50 ++
              [EvSpawn server_argv c; EvConsole "Starting CSharpier server..." None]).
      rewrite <- app_assoc. reflexivity. }
  destruct Hs as [tr Htr].
  destruct (result startServer w) as [child|e] eqn:Hr.
  - pose proof (startFresh_ok child w Hr) as E. cbv zeta in E.
    unfold after at 1. rewrite E. cbn [snd trace]. rewrite Htr.
    now eexists (_ :: tr).
  - unfold after at 1. rewrite (startFresh_throw e w Hr). cbn [snd].
    now exists tr.
Qed.

(** [ensureServer] with a stored descriptor goes through the cleanup:
    its trace ends in what follows the cleanup, on top of the trace the
    cleanup leaves. *)
Lemma ensureServer_adds (w : World OS) d :
  stored w = Some d ->
  exists rest,
    trace (after ensureServer w)
    = rest ++ trace (after (cleanupIdleServer d) (after (lockAttempts 5) w)).
Proof.
  intros Hs. set (w1 := after (lockAttempts 5) w).
  assert (Hs1 : stored w1 = Some d) by (unfold w1; now rewrite lockAttempts_stored).
  destruct (reuseServer_adds d w1) as [tr Htr].
  unfold after at 1. rewrite ensureServer_eq. fold w1. cbn [snd released trace].
  unfold after at 1, criticalSection, bind.
  rewrite (knownServer_some d w1 Hs1). unfold after at 1 in Htr.
  destruct (reuseServer d w1) as [[[st|]|e] w3]; cbn [snd] in *.
  - unfold ret. cbn [snd]. rewrite Htr. now eexists (_ :: tr).
  - destruct (startFresh_adds w3) as [tf Htf]. unfold after in Htf. rewrite Htf, Htr.
    exists (EvShell (RmF [LOCK_FILE]) :: tf ++ tr). cbn [app].
    now rewrite <- app_assoc.
  - rewrite Htr. now eexists (_ :: tr).
Qed.

End Traces.

(** ** The claims *)

(** C4. [acquireLock]: with no marker it writes one that holds the
    caller's process id and returns true; a marker whose modification
    time is more than 10 s old is removed and replaced by a fresh one,
    and it returns true; a marker that is not older than that makes it
    return false and leaves the world as it was. *)
Theorem acquireLock_semantics {OS} `{Platform OS} (w : World OS) :
  let marker := mkFile (clock (os w)) (Text (dec process_pid)) in
  (files w !! LOCK_FILE = None ->
   result acquireLock w = Ok true /\
   files (after acquireLock w) = <[LOCK_FILE := marker]> (files w)) /\
  (forall f, files w !! LOCK_FILE = Some f ->
   clock (os w) - mtime f > 10000 ->
   result acquireLock w = Ok true /\
   files (after acquireLock w) = <[LOCK_FILE := marker]> (delete LOCK_FILE (files w)) /\
   trace (after acquireLock w) =
     EvWrite LOCK_FILE (Text (dec process_pid)) :: EvShell (RmF [LOCK_FILE]) :: trace w) /\
  (forall f, files w !! LOCK_FILE = Some f ->
   clock (os w) - mtime f <= 10000 ->
   acquireLock w = (Ok false, w)).
Proof.
  cbv zeta. unfold result, after. repeat split.
  - now rewrite (acquireLock_free w).
  - now rewrite (acquireLock_free w).
  - now rewrite (acquireLock_stale w f).
  - now rewrite (acquireLock_stale w f).
  - now rewrite (acquireLock_stale w f).
  - intros f E Hyoung. now apply (acquireLock_held w f).
Qed.

Lemma acquireLock_semantics_witness :
  (result acquireLock w_healthy = Ok true /\
   files (after acquireLock w_healthy) !! LOCK_FILE = Some (mkFile t0 (Text "777"))) /\
  (result acquireLock w_stale_lock = Ok true /\
   files (after acquireLock w_stale_lock) !! LOCK_FILE = Some (mkFile t0 (Text "777"))) /\
  acquireLock w_held_lock = (Ok false, w_held_lock).
Proof.
  split; [|split].
  - destruct (proj1 (acquireLock_semantics w_healthy)) as [E1 E2].
    + reflexivity.
    + split; [exact E1|]. rewrite E2. reflexivity.
  - destruct (proj1 (proj2 (acquireLock_semantics w_stale_lock))
                (mkFile (t0 - 10001) (Text "4711"))) as (E1 & E2 & _).
    + reflexivity.
    + reflexivity.
    + split; [exact E1|]. rewrite E2. reflexivity.
  - apply (proj2 (proj2 (acquireLock_semantics w_held_lock))
             (mkFile (t0 - 10000) (Text "4711"))).
    + reflexivity.
    + vm_compute. discriminate.
Defined.

(** C3. A descriptor whose pid is alive and whose port is responsive,
    and that is not idle-expired when [ensureServer] checks it, is
    returned as it is stored, and the state file is left as it was; a
    second call right after the first returns the same descriptor and
    leaves the state file as it was, too: [ensureServer] alone does not
    advance [lastAccess]. *)
Theorem ensureServer_healthy_idempotent {OS} `{Platform OS} (w : World OS) d :
  let w1 := after (lockAttempts 5) w in
  stored w = Some d ->
  clock (os w1) - lastAccess d <= IDLE_TIMEOUT_MS ->
  result (isProcessRunning (pid d)) w1 = Ok true ->
  result (isServerResponsive (port d)) w1 = Ok true ->
  let w' := after ensureServer w in
  let w'' := after ensureServer w' in
  result ensureServer w = Ok d /\
  files w' !! STATE_FILE = files w !! STATE_FILE /\
  result ensureServer w' = Ok d /\
  files w'' !! STATE_FILE = files w !! STATE_FILE.
Proof.
  intros w1 Hs Hfresh Ha Hr.
  apply probe_true in Ha. apply poll_true in Hr.
  assert (Hc : after (cleanupIdleServer d) w1 = w1).
  { unfold after. now rewrite (cleanupIdleServer_fresh d w1 Hfresh). }
  assert (E1 : ensureServer w =
    (Ok d, released (logged (EvGet (port d)) (logged (EvShell (KillProbe (pid d))) w1)))).
  { rewrite (ensureServer_reuse w d Hs); fold w1; rewrite Hc; auto. }
  cbv zeta. unfold result, after at 1 2 4. rewrite E1. cbn [fst snd].
  set (w' := released _).
  assert (Hfiles : files w' !! STATE_FILE = files w !! STATE_FILE).
  { unfold w'. rewrite released_state_file. cbn [files logged].
    apply lockAttempts_files, paths_differ. }
  assert (Hs' : stored w' = Some d).
  { unfold stored in *. now rewrite Hfiles. }
  assert (Ho : os (after (lockAttempts 5) w') = os w1).
  { rewrite lockAttempts_free by apply released_lock. reflexivity. }
  assert (Hc' : after (cleanupIdleServer d) (after (lockAttempts 5) w')
                = after (lockAttempts 5) w').
  { unfold after at 1. rewrite cleanupIdleServer_fresh; [reflexivity|].
    now rewrite Ho. }
  assert (E2 : ensureServer w' =
    (Ok d, released (logged (EvGet (port d)) (logged (EvShell (KillProbe (pid d)))
                       (after (lockAttempts 5) w'))))).
  { rewrite (ensureServer_reuse w' d Hs'); rewrite Hc'; [reflexivity| |];
      now rewrite Ho. }
  unfold after at 1. rewrite E2. cbn [fst snd].
  repeat split; [exact Hfiles|].
  rewrite released_state_file. cbn [files logged].
  rewrite lockAttempts_files by apply paths_differ. exact Hfiles.
Qed.

Lemma ensureServer_healthy_idempotent_witness :
  let d := mkState 4242 SERVER_PORT (t0 - 1000) in
  result ensureServer w_healthy = Ok d /\
  files (after ensureServer w_healthy) !! STATE_FILE = files w_healthy !! STATE_FILE /\
  result ensureServer (after ensureServer w_healthy) = Ok d /\
  files (after ensureServer (after ensureServer w_healthy)) !! STATE_FILE
    = files w_healthy !! STATE_FILE.
Proof.
  intros d. apply (ensureServer_healthy_idempotent w_healthy d).
  - reflexivity.
  - vm_compute. discriminate.
  - reflexivity.
  - reflexivity.
Defined.

(** C8. Whatever [ensureServer] comes to, a reused descriptor, a fresh
    one or an error, the last thing it does is the removal of the lock
    marker by [releaseLock], and it leaves no marker behind. *)
Theorem ensureServer_releases_lock {OS} `{Platform OS} (w : World OS) :
  let w1 := after (lockAttempts 5) w in
  ensureServer w = (result criticalSection w1, released (after criticalSection w1)) /\
  files (after ensureServer w) !! LOCK_FILE = None /\
  (exists tr, trace (after ensureServer w) = EvShell (RmF [LOCK_FILE]) :: tr /\
              trace (after criticalSection w1) = tr).
Proof.
  cbv zeta. split; [apply ensureServer_eq|].
  unfold after at 1 2. rewrite ensureServer_eq. cbn [snd]. split.
  - apply released_lock.
  - eexists. split; reflexivity.
Qed.

(** C10. After the idle reap [ensureServer] goes on with the descriptor
    it had loaded: if, after the kill, the pid still passes
    [isProcessRunning] and the port still passes [isServerResponsive],
    that descriptor is returned, nothing is saved, and the state file is
    gone. *)
Theorem ensureServer_returns_reaped {OS} `{Platform OS} (w : World OS) d :
  let w1 := after (lockAttempts 5) w in
  let w2 := after (cleanupIdleServer d) w1 in
  stored w = Some d ->
  clock (os w1) - lastAccess d > IDLE_TIMEOUT_MS ->
  result (isProcessRunning (pid d)) w2 = Ok true ->
  result (isServerResponsive (port d)) w2 = Ok true ->
  let w' := after ensureServer w in
  In (EvShell (Kill SIGTERM (pid d))) (trace w') /\
  In (EvShell (RmF [STATE_FILE])) (trace w') /\
  result ensureServer w = Ok d /\
  files w' !! STATE_FILE = None /\
  result loadState w' = Ok None.
Proof.
  intros w1 w2 Hs Hidle Ha Hr.
  apply probe_true in Ha. apply poll_true in Hr.
  cbv zeta. unfold result at 1, after. rewrite (ensureServer_reuse w d Hs Ha Hr).
  fold w1 w2. cbn [fst snd].
  destruct (cleanupIdleServer_reaps d w1 Hidle) as (Hkill & Hrm & Hfiles).
  fold w2 in Hkill, Hrm, Hfiles.
  assert (Hgone : files (released (logged (EvGet (port d))
                    (logged (EvShell (KillProbe (pid d))) w2))) !! STATE_FILE = None).
  { rewrite released_state_file. cbn [files logged]. rewrite Hfiles.
    apply lookup_delete_eq. }
  repeat split.
  - cbn [released logged trace]. now do 3 right.
  - cbn [released logged trace]. now do 3 right.
  - exact Hgone.
  - unfold result. rewrite loadState_eq. cbn [fst]. unfold stored. now rewrite Hgone.
Qed.

Lemma ensureServer_returns_reaped_witness :
  let d := mkState 4242 SERVER_PORT (t0 - 3600001) in
  let w' := after ensureServer w_idle_survivor in
  In (EvShell (Kill SIGTERM 4242)) (trace w') /\
  In (EvShell (RmF [STATE_FILE])) (trace w') /\
  result ensureServer w_idle_survivor = Ok d /\
  files w' !! STATE_FILE = None /\
  result loadState w' = Ok None.
Proof.
  intros d. apply (ensureServer_returns_reaped w_idle_survivor d).
  - reflexivity.
  - reflexivity.
  - reflexivity.
  - reflexivity.
Defined.

(** C1, as the code has it.  A stored descriptor that is idle-expired
    when [ensureServer] checks it is reaped whatever its health: SIGTERM
    is sent to its pid, the state file is removed, and a load at that
    point finds no descriptor.  The reap is a stretch of the run of
    [ensureServer] itself, whatever it then comes to: its trace is the
    trace of the lock loop, then the reap, then the rest.  The health
    check that follows is made on the pid and the port of the reaped
    descriptor.  When that check fails and [startServer] then returns a
    pid, [ensureServer] has spawned a server, saves a descriptor of that
    pid, the fixed port and the current time, and returns it. *)
Theorem ensureServer_idle_reap {OS} `{Platform OS} (w : World OS) d :
  let w1 := after (lockAttempts 5) w in
  let w2 := after (cleanupIdleServer d) w1 in
  stored w = Some d ->
  clock (os w1) - lastAccess d > IDLE_TIMEOUT_MS ->
  (In (EvShell (Kill SIGTERM (pid d))) (trace w2) /\
   In (EvShell (RmF [STATE_FILE])) (trace w2) /\
   files w2 !! STATE_FILE = None /\
   result loadState w2 = Ok None) /\
  (exists reap rest,
     trace w2 = reap ++ trace w1 /\
     trace (after ensureServer w) = rest ++ reap ++ trace w1 /\
     In (EvShell (Kill SIGTERM (pid d))) reap /\
     In (EvShell (RmF [STATE_FILE])) reap) /\
  (forall child,
     result (isProcessRunning (pid d)) w2 = Ok false \/
     result (isServerResponsive (port d)) w2 = Ok false ->
     let w3 := after (reuseServer d) w1 in
     result startServer w3 = Ok child ->
     let w' := after ensureServer w in
     let fresh := mkState child SERVER_PORT (clock (os w')) in
     In (EvSpawn server_argv child) (trace w') /\
     result ensureServer w = Ok fresh /\
     files w' !! STATE_FILE = Some (mkFile (clock (os w')) (StateJson fresh)) /\
     result loadState w' = Ok (Some fresh)).
Proof.
  intros w1 w2 Hs Hidle.
  destruct (cleanupIdleServer_reaps d w1 Hidle) as (Hkill & Hrm & Hfiles).
  fold w2 in Hkill, Hrm, Hfiles.
  assert (Hgone : files w2 !! STATE_FILE = None).
  { rewrite Hfiles. apply lookup_delete_eq. }
  split.
  { repeat split; auto.
    unfold result. rewrite loadState_eq. cbn [fst]. unfold stored. now rewrite Hgone. }
  split.
  { destruct (cleanupIdleServer_adds d w1 Hidle) as (reap & Hreap & Hk & Hr).
    destruct (ensureServer_adds w d Hs) as [rest Hrest].
    fold w1 w2 in Hreap, Hrest.
    exists reap, rest. rewrite Hrest, Hreap. now repeat split. }
  intros child Hbad w3 Hstart.
  assert (Hbad' : alive (os w2) (pid d) && responsive (os w2) (port d) = false).
  { unfold result in Hbad. rewrite isProcessRunning_eq, isServerResponsive_eq in Hbad.
    cbn [fst] in Hbad. apply andb_false_iff.
    destruct Hbad as [[= ->]|[= ->]]; auto. }
  destruct (reuseServer_restart d w1 Hbad') as [Hnone Hf3]. fold w2 w3 in Hnone, Hf3.
  assert (Hs1 : stored w1 = Some d) by (unfold w1; now rewrite lockAttempts_stored).
  assert (Hk : knownServer w1 = reuseServer d w1) by now apply knownServer_some.
  assert (E : ensureServer w = (result startFresh w3, released (after startFresh w3))).
  { pose proof (ensureServer_restart w) as E0. cbv zeta in E0. fold w1 in E0.
    unfold result, after in E0, Hnone |- *. rewrite Hk in E0.
    apply E0. exact Hnone. }
  pose proof (startFresh_ok child w3 Hstart) as Ef. cbv zeta in Ef.
  set (now := clock (os (after startServer w3))) in *.
  set (fresh := mkState child SERVER_PORT now) in *.
  assert (Er : result ensureServer w = Ok fresh).
  { unfold result at 1. rewrite E. unfold result. now rewrite Ef. }
  assert (Ew : after ensureServer w =
               released (mkWorld (os (after startServer w3))
                                 (<[STATE_FILE := mkFile now (StateJson fresh)]> (files w3))
                                 (EvWrite STATE_FILE (StateJson fresh)
                                    :: trace (after startServer w3)))).
  { unfold after at 1. rewrite E. unfold after at 1. now rewrite Ef. }
  cbv zeta. rewrite Er, Ew. unfold released. cbn [os files trace]. fold now fresh.
  assert (Hlook : delete LOCK_FILE
            (<[STATE_FILE := mkFile now (StateJson fresh)]> (files w3)) !! STATE_FILE
          = Some (mkFile now (StateJson fresh))).
  { rewrite lookup_delete_ne by (intros E'; now apply paths_differ).
    apply lookup_insert_eq. }
  repeat split.
  - right. right. now apply startServer_spawns.
  - exact Hlook.
  - unfold result. rewrite loadState_eq. cbn [fst]. unfold stored. cbn [files].
    now rewrite Hlook.
Qed.

Lemma ensureServer_idle_reap_witness :
  let d := mkState 4242 SERVER_PORT (t0 - 3600001) in
  let w2 := after (cleanupIdleServer d) (after (lockAttempts 5) w_idle_restart) in
  let w' := after ensureServer w_idle_restart in
  let fresh := mkState 5000 SERVER_PORT (clock (os w')) in
  (In (EvShell (Kill SIGTERM 4242)) (trace w2) /\
   In (EvShell (RmF [STATE_FILE])) (trace w2) /\
   files w2 !! STATE_FILE = None /\
   result loadState w2 = Ok None) /\
  (exists reap rest,
     trace w2 = reap ++ trace (after (lockAttempts 5) w_idle_restart) /\
     trace (after ensureServer w_idle_restart)
       = rest ++ reap ++ trace (after (lockAttempts 5) w_idle_restart) /\
     In (EvShell (Kill SIGTERM (pid d))) reap /\
     In (EvShell (RmF [STATE_FILE])) reap) /\
  (In (EvSpawn server_argv 5000) (trace w') /\
   result ensureServer w_idle_restart = Ok fresh /\
   files w' !! STATE_FILE = Some (mkFile (clock (os w')) (StateJson fresh)) /\
   result loadState w' = Ok (Some fresh)) /\
  clock (os w') = t0 + 900.
Proof.
  intros d w2 w' fresh.
  destruct (ensureServer_idle_reap w_idle_restart d) as (Hreap & Hrun & Hfresh).
  - vm_compute; reflexivity.
  - vm_compute; reflexivity.
  - split; [exact Hreap|]. split; [exact Hrun|]. split.
    + apply (Hfresh 5000).
      * left. vm_compute; reflexivity.
      * vm_compute; reflexivity.
    + vm_compute; reflexivity.
Defined.

(** C1, as the specification has it, fails twice: in a world where the
    replacement never answers, [ensureServer] throws; in a world where the
    old server outlives the signals and keeps answering, [ensureServer]
    returns the old descriptor, spawns nothing and saves nothing. *)
Lemma ensureServer_idle_reap_counterexample :
  let d := mkState 4242 SERVER_PORT (t0 - 3600001) in
  (result ensureServer w_idle_no_start = Throw timeout_error /\
   ~ idle_reap_as_stated w_idle_no_start) /\
  (result ensureServer w_idle_survivor = Ok d /\
   stored (after ensureServer w_idle_survivor) = None /\
   ~ idle_reap_as_stated w_idle_survivor).
Proof.
  intros d. split; [split|split; [|split]].
  - vm_compute; reflexivity.
  - intros Hc. destruct (Hc d) as (child & _ & _ & Hres & _).
    + vm_compute; reflexivity.
    + vm_compute; reflexivity.
    + vm_compute in Hres. discriminate.
  - vm_compute; reflexivity.
  - vm_compute; reflexivity.
  - intros Hc. destruct (Hc d) as (child & _ & _ & _ & Hst).
    + vm_compute; reflexivity.
    + vm_compute; reflexivity.
    + vm_compute in Hst. discriminate.
Qed.

(** C5. [startServer] sleeps 200 ms before each look at the fixed port
    and looks at most 50 times: either some look, the first to find the
    port responsive, ends it with the pid of the child it spawned, or all
    50 looks fail and it throws the timeout error.  When the [try] block
    of [ensureServer] reaches [startServer] and [startServer] throws,
    [ensureServer] throws the same error. *)
Theorem startServer_bounded_polling {OS} `{Platform OS} :
  (forall w : World OS,
     let child := fst (spawn server_argv (os w)) in
     let o := snd (spawn server_argv (os w)) in
     let before := EvSpawn server_argv child
                   :: EvConsole "Starting CSharpier server..." None :: trace w in
     (exists k, (k < 50)%nat /\
        (forall j, (j < k)%nat -> responsive (slept (S j) o) SERVER_PORT = false) /\
        responsive (slept (S k) o) SERVER_PORT = true /\
        result startServer w = Ok child /\
        trace (after startServer w) = started child :: pollEvents (S k) ++ before) \/
     ((forall j, (j < 50)%nat -> responsive (slept (S j) o) SERVER_PORT = false) /\
      result startServer w = Throw timeout_error /\
      trace (after startServer w) = pollEvents 50 ++ before)) /\
  (forall (w : World OS) e,
     let w1 := after (lockAttempts 5) w in
     result knownServer w1 = Ok None ->
     result startServer (after knownServer w1) = Throw e ->
     result ensureServer w = Throw e).
Proof.
  split.
  - intros w child o before. unfold result, after. rewrite startServer_eq.
    fold child o before.
    destruct (first_responsive 50 o) as [(k & Hk & Hno & Hyes)|Hnever].
    + left. exists k.
      rewrite (awaitReady_first 50 child (mkWorld o (files w) before) k Hk Hno Hyes).
      now repeat split.
    + right.
      rewrite (awaitReady_never 50 child (mkWorld o (files w) before) Hnever).
      now repeat split.
  - intros w e w1 Hnone Hthrow. subst w1.
    unfold result at 1. rewrite (ensureServer_restart w Hnone). cbn [fst].
    unfold result. now rewrite (startFresh_throw e _ Hthrow).
Qed.

Lemma startServer_bounded_polling_witness :
  result ensureServer w_cold_dead = Throw timeout_error.
Proof.
  apply (proj2 (@startServer_bounded_polling Sim SimPlatform) w_cold_dead timeout_error).
  - vm_compute; reflexivity.
  - vm_compute; reflexivity.
Defined.

(** The statuses [isServerResponsive] counts as an answer. *)
Lemma isServerResponsive_statuses {OS} `{Platform OS} (w : World OS) p r :
  http_get (os w) p = Responded r ->
  (result (isServerResponsive p) w = Ok true <->
   200 <= code r <= 299 \/ code r = 404).
Proof.
  intros E. rewrite poll_true. unfold responsive, ok. rewrite E.
  rewrite orb_true_iff, andb_true_iff, !Z.leb_le, Z.eqb_eq. tauto.
Qed.

(** C2. A root path that answers with status 500 has answered, and
    [isServerResponsive] returns false on it. *)
Theorem isServerResponsive_rejects_500 :
  http_get (os w_root_500) SERVER_PORT = Responded (mkResponse 500 "" None) /\
  result (isServerResponsive SERVER_PORT) w_root_500 = Ok false.
Proof. split; reflexivity. Qed.

(** ** The request proxy *)

(** What [formatCode] comes to once [ensureServer] has returned [st] and
    the POST has been answered by [r]. *)
Lemma formatCode_answered {OS} `{Platform OS} (w : World OS) name contents st r o2 :
  result ensureServer w = Ok st ->
  let w1 := after ensureServer w in
  let rq := mkRequest (filePath name) contents in
  http_post (port st) rq (os w1) = (Responded r, o2) ->
  let w2 := mkWorld o2 (files w1) (EvPost (port st) rq :: trace w1) in
  let st' := mkState (pid st) (port st) (clock o2) in
  let w3 := mkWorld o2 (<[STATE_FILE := mkFile (clock o2) (StateJson st')]> (files w1))
                    (EvWrite STATE_FILE (StateJson st') :: trace w2) in
  let failed e w := (@Throw string e,
                     logged (EvConsole "Error formatting code:" (Some e)) w) in
  formatCode name contents w =
  if negb (ok r) then
    failed (Error ("Server returned " +:+ dec (code r) +:+ ": " +:+ body_text r)) w2
  else
    match body_json r with
    | None => failed SyntaxError w2
    | Some v =>
        if falsy (formattedFile v) then failed (new_Error (errorMessage v)) w3
        else (Ok (default EmptyString (formattedFile v)), w3)
    end.
Proof.
  intros He w1 rq Hp. cbv zeta. unfold formatCode, bind at 1.
  unfold result in He. unfold w1, after in *.
  destruct (ensureServer w) as [res wa]. cbn [fst snd] in *. subst res.
  unfold try_catch, bind at 1, fetch_post. fold rq. rewrite Hp.
  destruct (negb (ok r)) eqn:Eok.
  - reflexivity.
  - unfold response_json. destruct (body_json r) as [v|]; [|reflexivity].
    unfold bind at 1, ret at 1. unfold bind at 1, Date_now. cbn [os].
    unfold bind at 1. rewrite saveState_eq. cbn [os files trace].
    destruct (falsy (formattedFile v)); reflexivity.
Qed.

(** C9. Once the body of a 2xx response is parsed, [formatCode] saves
    the descriptor with [lastAccess] set to the current time, before it
    looks for the formatted file: the save is there whether the request
    then succeeds or fails, and a request that the backend answers 2xx
    without a formatted file fails with the backend's message and has
    advanced the stored [lastAccess] all the same. *)
Theorem formatCode_refreshes_before_check {OS} `{Platform OS} (w : World OS)
    name contents st r o2 v :
  result ensureServer w = Ok st ->
  http_post (port st) (mkRequest (filePath name) contents)
            (os (after ensureServer w)) = (Responded r, o2) ->
  ok r = true ->
  body_json r = Some v ->
  let w' := after (formatCode name contents) w in
  let st' := mkState (pid st) (port st) (clock o2) in
  stored w' = Some st' /\
  files w' !! STATE_FILE = Some (mkFile (clock o2) (StateJson st')) /\
  (formattedFile v = None ->
   result (formatCode name contents) w = Throw (new_Error (errorMessage v))).
Proof.
  intros He Hp Hok Hv. cbv zeta.
  pose proof (formatCode_answered w name contents st r o2 He Hp) as E.
  cbv zeta in E. rewrite Hok, Hv in E. cbn [negb] in E.
  unfold result, after, stored. rewrite E.
  destruct (formattedFile v) as [[|c s]|];
    cbn [falsy fst snd logged files]; rewrite lookup_insert_eq;
    repeat split; discriminate || reflexivity.
Qed.

Lemma formatCode_refreshes_before_check_witness :
  let st' := mkState 4242 SERVER_PORT t0 in
  let w' := after (formatCode "Program.cs" "class A { }") w_parse_error in
  stored w' = Some st' /\
  files w' !! STATE_FILE = Some (mkFile t0 (StateJson st')) /\
  result (formatCode "Program.cs" "class A { }") w_parse_error
    = Throw (Error "parse error").
Proof.
  intros st' w'.
  pose proof (formatCode_refreshes_before_check w_parse_error
                "Program.cs" "class A { }"
                (mkState 4242 SERVER_PORT (t0 - 1000))
                (mkResponse 200 "{...}" (Some (mkResult None (Some "parse error"%string) Failed)))
                (sim_up 200 (fun _ _ => json (mkResult None (Some "parse error"%string) Failed)))
                (mkResult None (Some "parse error"%string) Failed)) as Hw.
  destruct Hw as (Hs & Hf & Hr).
  - vm_compute; reflexivity.
  - vm_compute; reflexivity.
  - vm_compute; reflexivity.
  - vm_compute; reflexivity.
  - split; [exact Hs|]. split; [exact Hf|]. apply Hr. reflexivity.
Defined.

(** C6. Round trip.  For every file name and for every contents that
    [formatCode] is given, which are never the empty string ([main] ends
    on empty input before the call): when [ensureServer] returns a
    descriptor and the backend answers the POST with a 2xx status and
    the contents as the formatted file, [formatCode] returns the
    contents. *)
Theorem formatCode_roundtrip {OS} `{Platform OS} (w : World OS)
    name contents st r o2 :
  contents <> EmptyString ->
  result ensureServer w = Ok st ->
  http_post (port st) (mkRequest (filePath name) contents)
            (os (after ensureServer w)) = (Responded r, o2) ->
  ok r = true ->
  body_json r = Some (mkResult (Some contents) None Formatted) ->
  result (formatCode name contents) w = Ok contents.
Proof.
  intros Hne He Hp Hok Hv.
  pose proof (formatCode_answered w name contents st r o2 He Hp) as E.
  cbv zeta in E. rewrite Hok, Hv in E. cbn [negb formattedFile] in E.
  unfold result. rewrite E.
  destruct contents; [contradiction|reflexivity].
Qed.

Lemma formatCode_roundtrip_witness :
  result (formatCode "Program.cs" "class A { }") w_healthy = Ok "class A { }"%string.
Proof.
  apply (formatCode_roundtrip w_healthy "Program.cs" "class A { }"
           (mkState 4242 SERVER_PORT (t0 - 1000))
           (mkResponse 200 "{...}" (Some (mkResult (Some "class A { }"%string) None Formatted)))
           (sim_up 200 echo)).
  - discriminate.
  - vm_compute; reflexivity.
  - vm_compute; reflexivity.
  - vm_compute; reflexivity.
  - vm_compute; reflexivity.
Defined.

(** C7, as the code has it.  Once [ensureServer] has returned a
    descriptor and the POST has been answered: a status that is not 2xx
    makes [formatCode] fail with an error that carries the status and the
    response body; a 2xx response whose body has no formatted file makes
    it fail with the backend's error message; a 2xx response whose body
    has a formatted file that is not empty makes it return that file. *)
Theorem formatCode_backend_failures {OS} `{Platform OS} (w : World OS)
    name contents st r o2 :
  result ensureServer w = Ok st ->
  http_post (port st) (mkRequest (filePath name) contents)
            (os (after ensureServer w)) = (Responded r, o2) ->
  (ok r = false ->
   result (formatCode name contents) w =
   Throw (Error ("Server returned " +:+ dec (code r) +:+ ": " +:+ body_text r))) /\
  (forall v, ok r = true -> body_json r = Some v -> formattedFile v = None ->
   result (formatCode name contents) w = Throw (new_Error (errorMessage v))) /\
  (forall v s, ok r = true -> body_json r = Some v ->
   formattedFile v = Some s -> s <> EmptyString ->
   result (formatCode name contents) w = Ok s).
Proof.
  intros He Hp.
  pose proof (formatCode_answered w name contents st r o2 He Hp) as E.
  cbv zeta in E. unfold result. rewrite E. split; [|split].
  - intros ->. reflexivity.
  - intros v -> -> ->. reflexivity.
  - intros v s -> -> -> Hne. destruct s; [contradiction|reflexivity].
Qed.

Lemma formatCode_backend_failures_witness :
  result (formatCode "Program.cs" "class A { }") w_backend_500
    = Throw (Error "Server returned 500: Internal Server Error") /\
  result (formatCode "Program.cs" "class A { }") w_parse_error
    = Throw (Error "parse error") /\
  result (formatCode "Program.cs" "class A { }") w_healthy
    = Ok "class A { }"%string.
Proof.
  split; [|split].
  - destruct (formatCode_backend_failures w_backend_500
                "Program.cs" "class A { }"
                (mkState 4242 SERVER_PORT (t0 - 1000))
                (mkResponse 500 "Internal Server Error" None)
                (sim_up 200 (fun _ _ => plain 500 "Internal Server Error")))
      as (Hw & _ & _).
    + vm_compute; reflexivity.
    + vm_compute; reflexivity.
    + vm_compute in Hw. vm_compute. apply Hw. reflexivity.
  - destruct (formatCode_backend_failures w_parse_error
                "Program.cs" "class A { }"
                (mkState 4242 SERVER_PORT (t0 - 1000))
                (mkResponse 200 "{...}"
                   (Some (mkResult None (Some "parse error"%string) Failed)))
                (sim_up 200 (fun _ _ => json (mkResult None (Some "parse error"%string) Failed))))
      as (_ & Hw & _).
    + vm_compute; reflexivity.
    + vm_compute; reflexivity.
    + apply (Hw (mkResult None (Some "parse error"%string) Failed)); reflexivity.
  - destruct (formatCode_backend_failures w_healthy
                "Program.cs" "class A { }"
                (mkState 4242 SERVER_PORT (t0 - 1000))
                (mkResponse 200 "{...}"
                   (Some (mkResult (Some "class A { }"%string) None Formatted)))
                (sim_up 200 echo))
      as (_ & _ & Hw).
    + vm_compute; reflexivity.
    + vm_compute; reflexivity.
    + apply (Hw (mkResult (Some "class A { }"%string) None Formatted));
        [reflexivity|reflexivity|reflexivity|discriminate].
Defined.

(** C7, as the specification has it, fails on a backend that answers 200
    with a formatted file that is the empty string: the status is 2xx and
    the formatted file is there, and [formatCode] throws. *)
Lemma formatCode_backend_failures_counterexample :
  result (formatCode "Program.cs" "class A { }") w_blank = Throw (Error "") /\
  ~ fails_exactly_as_stated w_blank "Program.cs" "class A { }".
Proof.
  split; [vm_compute; reflexivity|].
  intros Hc.
  specialize (Hc (mkState 4242 SERVER_PORT (t0 - 1000))
                 (mkResponse 200 "{...}" (Some (mkResult (Some ""%string) None Formatted)))
                 (sim_up 200 (fun _ _ => json (mkResult (Some ""%string) None Formatted)))
                 (mkResult (Some ""%string) None Formatted)).
  destruct Hc as [Hfail _]; try (vm_compute; reflexivity).
  destruct Hfail as [Hbad|Hbad].
  - exists (Error ""). vm_compute; reflexivity.
  - vm_compute in Hbad. discriminate.
  - discriminate.
Qed.

(** ** Further properties of the lifecycle manager *)

Section Lifecycle.
Context {OS : Type} `{Platform OS}.

(** A restart that returns a descriptor has stored it. *)
Lemma startFresh_returns (w : World OS) d :
  result startFresh w = Ok d ->
  stored (released (after startFresh w)) = Some d.
Proof.
  intros Hd. destruct (result startServer w) as [child|e] eqn:Hr.
  - pose proof (startFresh_ok child w Hr) as E. cbv zeta in E.
    unfold result, after in *. rewrite E in Hd |- *. cbn [fst snd] in *.
    injection Hd as <-. rewrite released_stored. unfold stored. cbn [files].
    now rewrite lookup_insert_eq.
  - unfold result in Hd. rewrite (startFresh_throw e w Hr) in Hd. discriminate.
Qed.

Lemma stored_logged e (w : World OS) : stored (logged e w) = stored w.
Proof. reflexivity. Qed.

(** [ensureServer] when the [try] block reaches the restart in [w3]. *)
Lemma ensureServer_restart_from (w w3 : World OS) :
  knownServer (after (lockAttempts 5) w) = (Ok None, w3) ->
  ensureServer w = (result startFresh w3, released (after startFresh w3)).
Proof.
  intros Ek. pose proof (ensureServer_restart w) as E. cbv zeta in E.
  unfold result, after in *. rewrite Ek in E. cbn [fst snd] in E.
  exact (E eq_refl).
Qed.

(** The completion and the stored descriptor of a restart that
    succeeds. *)
Lemma ensureServer_restart_ok (w w3 : World OS) child :
  knownServer (after (lockAttempts 5) w) = (Ok None, w3) ->
  result startServer w3 = Ok child ->
  let w' := after ensureServer w in
  let fresh := mkState child SERVER_PORT (clock (os w')) in
  result ensureServer w = Ok fresh /\
  files w' !! STATE_FILE = Some (mkFile (clock (os w')) (StateJson fresh)) /\
  stored w' = Some fresh.
Proof.
  intros Ek Hstart.
  pose proof (ensureServer_restart_from w w3 Ek) as E.
  pose proof (startFresh_ok child w3 Hstart) as Ef. cbv zeta in Ef.
  assert (Er : result ensureServer w = result startFresh w3)
    by (unfold result at 1; now rewrite E).
  assert (Ew : after ensureServer w = released (after startFresh w3))
    by (unfold after at 1; now rewrite E).
  cbv zeta. rewrite Er, Ew. unfold result, after. rewrite Ef. cbn [fst snd].
  unfold stored, released. cbn [os files trace].
  rewrite lookup_delete_ne by (intros E'; now apply paths_differ).
  rewrite lookup_insert_eq. repeat split.
Qed.

End Lifecycle.

(** X1. A descriptor that [ensureServer] returns is the stored one when
    it ends, but for the descriptor that was idle-expired and passed the
    health check after the reap: that one is returned with the state
    file gone. *)
Theorem ensureServer_outcome {OS} `{Platform OS} (w : World OS) d :
  let w1 := after (lockAttempts 5) w in
  let w' := after ensureServer w in
  result ensureServer w = Ok d ->
  stored w' = Some d \/
  (stored w = Some d /\
   clock (os w1) - lastAccess d > IDLE_TIMEOUT_MS /\ stored w' = None).
Proof.
  intros w1 w' Hd.
  assert (Hrestart : result knownServer w1 = Ok None -> stored w' = Some d).
  { intros Hn. pose proof (ensureServer_restart w Hn) as E. cbv zeta in E.
    assert (Er : result ensureServer w = result startFresh (after knownServer w1))
      by (unfold result at 1; now rewrite E).
    assert (Ew : w' = released (after startFresh (after knownServer w1)))
      by (unfold w', after at 1; now rewrite E).
    rewrite Ew. apply startFresh_returns. now rewrite <- Er. }
  destruct (stored w) as [d0|] eqn:Hs.
  - assert (Hs1 : stored w1 = Some d0) by (unfold w1; now rewrite lockAttempts_stored).
    set (w2 := after (cleanupIdleServer d0) w1).
    destruct (alive (os w2) (pid d0) && responsive (os w2) (port d0)) eqn:Hh.
    + apply andb_true_iff in Hh. destruct Hh as [Ha Hr].
      pose proof (ensureServer_reuse w d0 Hs Ha Hr) as E.
      assert (Ed : d0 = d).
      { unfold result in Hd. rewrite E in Hd. now injection Hd. }
      subst d0. unfold w', after. rewrite E. cbn [snd].
      rewrite released_stored, !stored_logged. fold w1 w2.
      destruct (Z_gt_le_dec (clock (os w1) - lastAccess d) IDLE_TIMEOUT_MS) as [Hi|Hf].
      * right. repeat split; auto.
        destruct (cleanupIdleServer_reaps d w1 Hi) as (_ & _ & Hfiles).
        fold w2 in Hfiles. unfold stored. rewrite Hfiles. now rewrite lookup_delete_eq.
      * left. unfold w2, after. now rewrite (cleanupIdleServer_fresh d w1 Hf).
    + destruct (reuseServer_restart d0 w1 Hh) as [Hn _].
      left. apply Hrestart. unfold result in *. now rewrite (knownServer_some d0 w1 Hs1).
  - assert (Hs1 : stored w1 = None) by (unfold w1; now rewrite lockAttempts_stored).
    left. apply Hrestart. unfold result. now rewrite (knownServer_none w1 Hs1).
Qed.

Lemma ensureServer_outcome_witness :
  let d := mkState 4242 SERVER_PORT (t0 - 3600001) in
  let w1 := after (lockAttempts 5) w_idle_survivor in
  let w' := after ensureServer w_idle_survivor in
  (stored w' = Some d \/
   (stored w_idle_survivor = Some d /\
    clock (os w1) - lastAccess d > IDLE_TIMEOUT_MS /\ stored w' = None)) /\
  stored (after ensureServer w_healthy) = Some (mkState 4242 SERVER_PORT (t0 - 1000)).
Proof.
  intros d w1 w'. split.
  - apply (ensureServer_outcome w_idle_survivor d). vm_compute; reflexivity.
  - destruct (ensureServer_outcome w_healthy (mkState 4242 SERVER_PORT (t0 - 1000)))
      as [Hs|(_ & Hi & _)].
    + vm_compute; reflexivity.
    + exact Hs.
    + vm_compute in Hi. discriminate.
Defined.

(** X2. Dead-pid recovery.  A stored descriptor that is not idle-expired
    and whose pid is not running makes [ensureServer] restart without a
    look at the port and without a signal: up to the spawn it only
    probes the pid, twice, and logs.  When [startServer] then returns a
    pid, the descriptor of that pid, the fixed port and the current time
    is returned and stored. *)
Theorem ensureServer_dead_pid {OS} `{Platform OS} (w : World OS) d :
  let w1 := after (lockAttempts 5) w in
  let w3 := logged (EvShell (KillProbe (pid d)))
              (logged (EvConsole "Server process not found or not responsive, restarting..." None)
                 (logged (EvShell (KillProbe (pid d))) w1)) in
  stored w = Some d ->
  clock (os w1) - lastAccess d <= IDLE_TIMEOUT_MS ->
  result (isProcessRunning (pid d)) w1 = Ok false ->
  knownServer w1 = (Ok None, w3) /\
  (forall child,
     result startServer w3 = Ok child ->
     let w' := after ensureServer w in
     let fresh := mkState child SERVER_PORT (clock (os w')) in
     result ensureServer w = Ok fresh /\ stored w' = Some fresh).
Proof.
  intros w1 w3 Hs Hfresh Hdead.
  assert (Ha : alive (os w1) (pid d) = false).
  { unfold result in Hdead. rewrite isProcessRunning_eq in Hdead. now injection Hdead. }
  assert (Hs1 : stored w1 = Some d) by (unfold w1; now rewrite lockAttempts_stored).
  assert (Ek : knownServer w1 = (Ok None, w3)).
  { rewrite (knownServer_some d w1 Hs1). unfold reuseServer. unfold bind at 1.
    rewrite (cleanupIdleServer_fresh d w1 Hfresh).
    unfold bind at 1. rewrite isProcessRunning_eq, Ha.
    unfold bind at 1, ret at 1. unfold bind at 1, console_error, emit.
    unfold bind at 1. rewrite isProcessRunning_eq. cbn [os logged]. rewrite Ha.
    reflexivity. }
  split; [exact Ek|]. intros child Hstart.
  destruct (ensureServer_restart_ok w w3 child Ek Hstart) as (Hr & _ & Hst).
  now split.
Qed.

Lemma ensureServer_dead_pid_witness :
  let d := mkState 999 SERVER_PORT (t0 - 1000) in
  let w' := after ensureServer w_dead_pid in
  let fresh := mkState 5000 SERVER_PORT (clock (os w')) in
  (result ensureServer w_dead_pid = Ok fresh /\ stored w' = Some fresh) /\
  clock (os w') = t0 + 400.
Proof.
  intros d w' fresh.
  destruct (ensureServer_dead_pid w_dead_pid d) as [_ Hfresh].
  - vm_compute; reflexivity.
  - vm_compute; discriminate.
  - vm_compute; reflexivity.
  - split; [|vm_compute; reflexivity].
    apply (Hfresh 5000). vm_compute; reflexivity.
Defined.

(** X3. Stop, then restart.  A stored descriptor that is not
    idle-expired, whose pid is running and whose port does not answer,
    makes [ensureServer] run [killServer] on that pid before it starts a
    server: SIGTERM is sent, and [startServer] runs in the world
    [killServer] leaves. *)
Theorem ensureServer_unresponsive {OS} `{Platform OS} (w : World OS) d :
  let w1 := after (lockAttempts 5) w in
  let w2 := logged (EvShell (KillProbe (pid d)))
              (logged (EvConsole "Server process not found or not responsive, restarting..." None)
                 (logged (EvGet (port d)) (logged (EvShell (KillProbe (pid d))) w1))) in
  let w3 := after (killServer (pid d)) w2 in
  stored w = Some d ->
  clock (os w1) - lastAccess d <= IDLE_TIMEOUT_MS ->
  result (isProcessRunning (pid d)) w1 = Ok true ->
  result (isServerResponsive (port d)) w1 = Ok false ->
  knownServer w1 = (Ok None, w3) /\
  (exists tr, trace w3 = tr ++ EvShell (Kill SIGTERM (pid d)) :: trace w2) /\
  ensureServer w = (result startFresh w3, released (after startFresh w3)).
Proof.
  intros w1 w2 w3 Hs Hfresh Hup Hmute.
  apply probe_true in Hup.
  assert (Hr : responsive (os w1) (port d) = false).
  { unfold result in Hmute. rewrite isServerResponsive_eq in Hmute. now injection Hmute. }
  assert (Hs1 : stored w1 = Some d) by (unfold w1; now rewrite lockAttempts_stored).
  assert (Ek : knownServer w1 = (Ok None, w3)).
  { rewrite (knownServer_some d w1 Hs1). unfold reuseServer. unfold bind at 1.
    rewrite (cleanupIdleServer_fresh d w1 Hfresh).
    unfold bind at 1. rewrite isProcessRunning_eq, Hup.
    unfold bind at 1. rewrite isServerResponsive_eq. cbn [os logged]. rewrite Hr.
    unfold bind at 1, console_error, emit.
    unfold bind at 1. rewrite isProcessRunning_eq. cbn [os logged]. rewrite Hup.
    unfold bind. rewrite killServer_eq. reflexivity. }
  split; [exact Ek|]. split; [apply killServer_trace|].
  now apply ensureServer_restart_from.
Qed.

Lemma ensureServer_unresponsive_witness :
  let d := mkState 4242 SERVER_PORT (t0 - 1000) in
  let w1 := after (lockAttempts 5) w_unresponsive in
  let w2 := logged (EvShell (KillProbe (pid d)))
              (logged (EvConsole "Server process not found or not responsive, restarting..." None)
                 (logged (EvGet (port d)) (logged (EvShell (KillProbe (pid d))) w1))) in
  let w3 := after (killServer (pid d)) w2 in
  (knownServer w1 = (Ok None, w3) /\
   (exists tr, trace w3 = tr ++ EvShell (Kill SIGTERM (pid d)) :: trace w2) /\
   ensureServer w_unresponsive = (result startFresh w3, released (after startFresh w3))) /\
  result ensureServer w_unresponsive = Ok (mkState 5000 SERVER_PORT (t0 + 900)).
Proof.
  intros d w1 w2 w3. split.
  - apply (ensureServer_unresponsive w_unresponsive d).
    + vm_compute; reflexivity.
    + vm_compute; discriminate.
    + vm_compute; reflexivity.
    + vm_compute; reflexivity.
  - vm_compute; reflexivity.
Defined.

(** X4. A state file that is missing, or holds text that does not
    parse, is no descriptor: [loadState] returns none and changes
    nothing, and [ensureServer] goes to [startServer] with no probe and
    no signal; when [startServer] returns a pid, the state file holds
    the new descriptor. *)
Theorem ensureServer_missing_or_corrupt {OS} `{Platform OS} (w : World OS) :
  let w1 := after (lockAttempts 5) w in
  state_unreadable w ->
  loadState w = (Ok None, w) /\
  ensureServer w = (result startFresh w1, released (after startFresh w1)) /\
  (forall child,
     result startServer w1 = Ok child ->
     let w' := after ensureServer w in
     let fresh := mkState child SERVER_PORT (clock (os w')) in
     result ensureServer w = Ok fresh /\
     files w' !! STATE_FILE = Some (mkFile (clock (os w')) (StateJson fresh))).
Proof.
  intros w1 Hbad.
  assert (Hs : stored w = None).
  { unfold stored. destruct Hbad as [->|(m & s & -> & _)]; reflexivity. }
  assert (Hs1 : stored w1 = None) by (unfold w1; now rewrite lockAttempts_stored).
  pose proof (knownServer_none w1 Hs1) as Ek.
  split; [now rewrite loadState_eq, Hs|].
  split; [now apply ensureServer_restart_from|].
  intros child Hstart.
  destruct (ensureServer_restart_ok w w1 child Ek Hstart) as (Hr & Hf & _).
  now split.
Qed.

Lemma ensureServer_missing_or_corrupt_witness :
  let w' := after ensureServer w_corrupt in
  let fresh := mkState 5000 SERVER_PORT (clock (os w')) in
  (result ensureServer w_corrupt = Ok fresh /\
   files w' !! STATE_FILE = Some (mkFile (clock (os w')) (StateJson fresh))) /\
  clock (os w') = t0 + 200.
Proof.
  intros w' fresh.
  destruct (ensureServer_missing_or_corrupt w_corrupt) as (_ & _ & Hfresh).
  - right. exists (t0 - 1000), "{"%string. split; vm_compute; reflexivity.
  - split; [|vm_compute; reflexivity].
    apply (Hfresh 5000). vm_compute; reflexivity.
Defined.

(** ** Further properties of the lock, the supervisor and the proxy *)

Lemma lockAttempts_bound {OS} `{Platform OS} n (w : World OS) :
  exists k, (k <= n)%nat /\ os (after (lockAttempts n) w) = waited k (os w).
Proof.
  revert w. induction n as [|n IH]; intros w.
  - exists O. split; [lia|reflexivity].
  - unfold after. cbn [lockAttempts]. unfold bind at 1.
    destruct (acquireLock_cases w) as (b & fs & tr & -> & _).
    destruct b.
    + exists O. split; [lia|reflexivity].
    + unfold bind, Bun_sleep. cbn [os files trace].
      destruct (IH (mkWorld (sleep 100 (os w)) fs (EvSleep 100 :: tr))) as (k & Hk & E).
      exists (S k). split; [lia|]. unfold after in E. cbn [os] in E. exact E.
Qed.

Lemma lockAttempts_held {OS} `{Platform OS} n (w : World OS) f :
  files w !! LOCK_FILE = Some f ->
  (forall k, (k < n)%nat -> clock (waited k (os w)) - mtime f <= 10000) ->
  lockAttempts n w =
  (Ok tt, mkWorld (waited n (os w)) (files w) (repeat (EvSleep 100) n ++ trace w)).
Proof.
  revert w. induction n as [|n IH]; intros w Hf Hyoung.
  - now destruct w.
  - cbn [lockAttempts]. unfold bind at 1.
    rewrite (acquireLock_held w f Hf (Hyoung O ltac:(lia))).
    unfold bind, Bun_sleep. rewrite IH.
    + cbn [os files trace waited]. do 2 f_equal.
      change (EvSleep 100 :: trace w) with ([EvSleep 100] ++ trace w).
      rewrite app_assoc. f_equal. 
      change (repeat (EvSleep 100) n ++ [EvSleep 100])
        with (repeat (EvSleep 100) n ++ repeat (EvSleep 100) 1).
      rewrite <- repeat_app. now rewrite Nat.add_1_r.
    + exact Hf.
    + intros k Hk. apply (Hyoung (S k)). lia.
Qed.

(** X5. The lock loop sleeps at most five times, 100 ms each.  Behind a
    marker that stays within the staleness threshold it sleeps all five
    times, writes nothing and goes on; [ensureServer] then runs the [try]
    block without the lock and ends by removing the marker, which is not
    its own. *)
Theorem ensureServer_lock_contention {OS} `{Platform OS} (w : World OS) :
  (exists k, (k <= 5)%nat /\ os (after (lockAttempts 5) w) = waited k (os w)) /\
  (forall f,
     files w !! LOCK_FILE = Some f ->
     (forall k, (k < 5)%nat -> clock (waited k (os w)) - mtime f <= 10000) ->
     let w1 := mkWorld (waited 5 (os w)) (files w) (repeat (EvSleep 100) 5 ++ trace w) in
     after (lockAttempts 5) w = w1 /\
     ensureServer w = (result criticalSection w1, released (after criticalSection w1)) /\
     files (after ensureServer w) !! LOCK_FILE = None).
Proof.
  split; [apply lockAttempts_bound|].
  intros f Hf Hyoung w1.
  assert (E1 : after (lockAttempts 5) w = w1).
  { unfold after. now rewrite (lockAttempts_held 5 w f Hf Hyoung). }
  split; [exact E1|]. rewrite <- E1. split; [apply ensureServer_eq|].
  unfold after at 1. rewrite ensureServer_eq. apply released_lock.
Qed.

Lemma ensureServer_lock_contention_witness :
  let w1 := mkWorld (waited 5 (os w_fresh_lock)) (files w_fresh_lock)
                    (repeat (EvSleep 100) 5 ++ trace w_fresh_lock) in
  (after (lockAttempts 5) w_fresh_lock = w1 /\
   ensureServer w_fresh_lock
     = (result criticalSection w1, released (after criticalSection w1)) /\
   files (after ensureServer w_fresh_lock) !! LOCK_FILE = None) /\
  files w_fresh_lock !! LOCK_FILE = Some (mkFile t0 (Text "4711")) /\
  clock (os w1) = t0 + 500.
Proof.
  intros w1. split; [|split; vm_compute; reflexivity].
  apply (proj2 (ensureServer_lock_contention w_fresh_lock) (mkFile t0 (Text "4711"))).
  - vm_compute; reflexivity.
  - intros k Hk.
    destruct k as [|[|[|[|[|k]]]]]; try lia; vm_compute; discriminate.
Defined.

(** X6. [releaseLock] never throws and ignores a marker that is not
    there; after an [acquireLock] that found no marker it puts the files
    back as they were. *)
Theorem releaseLock_undoes_acquireLock {OS} `{Platform OS} (w : World OS) :
  result releaseLock w = Ok tt /\
  (files w !! LOCK_FILE = None ->
   files (after releaseLock w) = files w /\
   result acquireLock w = Ok true /\
   files (after releaseLock (after acquireLock w)) = files w).
Proof.
  split; [reflexivity|]. intros Hnone. unfold result, after.
  rewrite releaseLock_eq, (acquireLock_free w Hnone), releaseLock_eq. cbn [fst snd files].
  split; [now apply delete_id|]. split; [reflexivity|].
  now apply delete_insert_id.
Qed.

Lemma releaseLock_undoes_acquireLock_witness :
  files (after releaseLock w_healthy) = files w_healthy /\
  result acquireLock w_healthy = Ok true /\
  files (after releaseLock (after acquireLock w_healthy)) = files w_healthy.
Proof.
  apply (proj2 (releaseLock_undoes_acquireLock w_healthy)).
  vm_compute; reflexivity.
Defined.

(** X7. [killServer] never throws and escalates in steps.  When the
    SIGTERM is not delivered it stops there, without the half-second
    wait; when it is delivered it waits 500 ms and probes: a pid that is
    gone gets nothing more, a pid that is still there gets SIGKILL,
    whose exit status is ignored. *)
Theorem killServer_escalation {OS} `{Platform OS} (w : World OS) p :
  let rc := fst (kill SIGTERM p (os w)) in
  let o1 := snd (kill SIGTERM p (os w)) in
  let o2 := sleep 500 o1 in
  let sent := EvShell (Kill SIGTERM p) :: trace w in
  let probed := EvShell (KillProbe p) :: EvSleep 500 :: sent in
  (rc <> 0 -> killServer p w = (Ok tt, mkWorld o1 (files w) sent)) /\
  (rc = 0 -> result (isProcessRunning p) (mkWorld o2 (files w) (EvSleep 500 :: sent)) = Ok false ->
   killServer p w = (Ok tt, mkWorld o2 (files w) probed)) /\
  (rc = 0 -> result (isProcessRunning p) (mkWorld o2 (files w) (EvSleep 500 :: sent)) = Ok true ->
   killServer p w =
   (Ok tt, mkWorld (snd (kill SIGKILL p o2)) (files w)
                   (EvShell (Kill SIGKILL p) :: probed))).
Proof.
  cbv zeta. unfold result. rewrite isProcessRunning_eq. cbn [fst os].
  unfold killServer, try_catch, sh, run, bind, Bun_sleep.
  destruct (kill SIGTERM p (os w)) as [rc o1]. cbn [fst snd].
  split; [|split].
  - intros Hrc. apply Z.eqb_neq in Hrc. now rewrite Hrc.
  - intros -> [= Hdead]. simpl.
    rewrite isProcessRunning_eq. unfold logged. simpl. now rewrite Hdead.
  - intros -> [= Hup]. simpl.
    rewrite isProcessRunning_eq. unfold logged. simpl. rewrite Hup. simpl.
    destruct (kill SIGKILL p (sleep 500 o1)) as [rc2 o3]. simpl.
    now destruct (rc2 =? 0).
Qed.

Lemma killServer_escalation_witness :
  trace (after (killServer 999) w_healthy) = [EvShell (Kill SIGTERM 999)] /\
  trace (after (killServer 4242) w_unresponsive)
    = [EvShell (KillProbe 4242); EvSleep 500; EvShell (Kill SIGTERM 4242)] /\
  trace (after (killServer 4242) w_healthy)
    = [EvShell (Kill SIGKILL 4242); EvShell (KillProbe 4242); EvSleep 500;
       EvShell (Kill SIGTERM 4242)].
Proof.
  split; [|split].
  - unfold after.
    rewrite (proj1 (killServer_escalation w_healthy 999));
      [reflexivity|vm_compute; discriminate].
  - unfold after.
    rewrite (proj1 (proj2 (killServer_escalation w_unresponsive 4242)));
      vm_compute; reflexivity.
  - unfold after.
    rewrite (proj2 (proj2 (killServer_escalation w_healthy 4242)));
      vm_compute; reflexivity.
Defined.

(** X8. A format request that fails before a 2xx body is parsed leaves
    the state file as [ensureServer] left it.  A failure of
    [ensureServer] passes through [formatCode] as it is: no request is
    sent and nothing is logged.  A request that is not answered, or
    answered with a status that is not 2xx, or with a body that does not
    parse, is logged and thrown, and no file is written. *)
Theorem formatCode_failure_keeps_state {OS} `{Platform OS} (w : World OS)
    name contents :
  let w1 := after ensureServer w in
  (forall e, result ensureServer w = Throw e ->
     formatCode name contents w = (Throw e, w1)) /\
  (forall st out o2,
     let rq := mkRequest (filePath name) contents in
     result ensureServer w = Ok st ->
     http_post (port st) rq (os w1) = (out, o2) ->
     out = NetworkError \/ out = TimedOut \/
     (exists r, out = Responded r /\ (ok r = false \/ body_json r = None)) ->
     exists e,
       formatCode name contents w =
       (Throw e, mkWorld o2 (files w1)
                         (EvConsole "Error formatting code:" (Some e)
                            :: EvPost (port st) rq :: trace w1))).
Proof.
  intros w1. split.
  - intros e He. unfold formatCode, bind. unfold result in He. unfold w1, after.
    destruct (ensureServer w) as [res wa]. cbn [fst snd] in *. now subst res.
  - intros st out o2 rq He Hp Hbad.
    destruct Hbad as [->|[->|(r & -> & Hr)]].
    + exists FetchFailed. unfold formatCode, bind at 1.
      unfold result in He. unfold w1, after in *.
      destruct (ensureServer w) as [res wa]. cbn [fst snd] in *. subst res.
      unfold try_catch, bind at 1, fetch_post. fold rq. now rewrite Hp.
    + exists TimeoutError. unfold formatCode, bind at 1.
      unfold result in He. unfold w1, after in *.
      destruct (ensureServer w) as [res wa]. cbn [fst snd] in *. subst res.
      unfold try_catch, bind at 1, fetch_post. fold rq. now rewrite Hp.
    + pose proof (formatCode_answered w name contents st r o2 He Hp) as E.
      cbv zeta in E. rewrite E. fold w1 rq.
      destruct (ok r) eqn:Hok; cbn [negb].
      * destruct Hr as [Hr|Hr]; [discriminate|]. rewrite Hr.
        exists SyntaxError. reflexivity.
      * eexists. reflexivity.
Qed.

Lemma formatCode_failure_keeps_state_witness :
  formatCode "Program.cs" "class A { }" w_cold_dead
    = (Throw timeout_error, after ensureServer w_cold_dead) /\
  (exists e,
     formatCode "Program.cs" "class A { }" w_backend_500 =
     (Throw e,
      mkWorld (sim_up 200 (fun _ _ => plain 500 "Internal Server Error"))
              (files (after ensureServer w_backend_500))
              (EvConsole "Error formatting code:" (Some e)
                 :: EvPost (port (mkState 4242 SERVER_PORT (t0 - 1000)))
                      (mkRequest (filePath "Program.cs") "class A { }")
                 :: trace (after ensureServer w_backend_500)))) /\
  stored (after (formatCode "Program.cs" "class A { }") w_backend_500)
    = Some (mkState 4242 SERVER_PORT (t0 - 1000)).
Proof.
  split; [|split].
  - apply (proj1 (formatCode_failure_keeps_state w_cold_dead "Program.cs" "class A { }")).
    vm_compute; reflexivity.
  - apply (proj2 (formatCode_failure_keeps_state w_backend_500 "Program.cs" "class A { }")
             (mkState 4242 SERVER_PORT (t0 - 1000))
             (plain 500 "Internal Server Error")).
    + vm_compute; reflexivity.
    + vm_compute; reflexivity.
    + right. right. eexists. split; [reflexivity|]. left. vm_compute; reflexivity.
  - vm_compute; reflexivity.
Defined.

(** ** [stopServer] *)

Lemma stopServer_eq {OS} `{Platform OS} (w : World OS) d :
  stored w = Some d ->
  let w1 := logged (EvConsole ("Stopping CSharpier server (PID " +:+ dec (pid d)
                               +:+ ")...") None) w in
  let w2 := after (killServer (pid d)) w1 in
  stopServer w =
  (Ok tt, mkWorld (os w2) (delete STATE_FILE (delete LOCK_FILE (files w)))
                  (EvConsole "Server stopped successfully" None
                     :: EvShell (RmF [STATE_FILE; LOCK_FILE]) :: trace w2)).
Proof.
  intros Hs w1 w2. unfold stopServer, bind at 1. rewrite loadState_eq, Hs.
  unfold bind at 1, console_error, emit. fold (logged (EvConsole ("Stopping CSharpier server (PID " +:+ dec (pid d) +:+ ")...") None) w). fold w1.
  unfold bind at 1. rewrite killServer_eq. fold w2.
  unfold bind. rewrite rm_f_eq. cbn [os files trace foldr].
  unfold w2 at 2. now rewrite killServer_files.
Qed.

(** X9. [stopServer] with a stored descriptor never throws: it sends
    SIGTERM to the stored pid, removes the state file and the lock
    marker, whoever wrote it, and reports success whatever became of the
    process.  After it no descriptor is stored, and a second [stopServer]
    only says that no server is running. *)
Theorem stopServer_stops {OS} `{Platform OS} (w : World OS) d :
  stored w = Some d ->
  let w' := after stopServer w in
  result stopServer w = Ok tt /\
  In (EvShell (Kill SIGTERM (pid d))) (trace w') /\
  (exists tr, trace w' = EvConsole "Server stopped successfully" None :: tr) /\
  files w' = delete STATE_FILE (delete LOCK_FILE (files w)) /\
  stored w' = None /\
  stopServer w' = (Ok tt, logged (EvConsole "No server is currently running" None) w').
Proof.
  intros Hs. pose proof (stopServer_eq w d Hs) as E. cbv zeta in E.
  set (W := mkWorld _ _ _) in E.
  assert (Er : result stopServer w = Ok tt) by (unfold result; now rewrite E).
  assert (Ew : after stopServer w = W) by (unfold after; now rewrite E).
  cbv zeta. rewrite Er, Ew.
  assert (Hnone : stored W = None).
  { unfold stored, W. cbn [files]. now rewrite lookup_delete_eq. }
  split; [reflexivity|]. split.
  - unfold W. cbn [trace]. do 2 right.
    destruct (killServer_trace (pid d)
      (logged (EvConsole ("Stopping CSharpier server (PID " +:+ dec (pid d)
                          +:+ ")...") None) w)) as [tr ->].
    apply in_or_app. right. now left.
  - split; [eexists; reflexivity|]. split; [reflexivity|]. split; [exact Hnone|].
    unfold stopServer, bind. now rewrite loadState_eq, Hnone.
Qed.

Lemma stopServer_stops_witness :
  let w' := after stopServer w_fresh_lock in
  result stopServer w_fresh_lock = Ok tt /\
  In (EvShell (Kill SIGTERM (pid (mkState 4242 SERVER_PORT (t0 - 1000))))) (trace w') /\
  (exists tr, trace w' = EvConsole "Server stopped successfully" None :: tr) /\
  files w' = delete STATE_FILE (delete LOCK_FILE (files w_fresh_lock)) /\
  stored w' = None /\
  stopServer w' = (Ok tt, logged (EvConsole "No server is currently running" None) w').
Proof.
  apply (stopServer_stops w_fresh_lock (mkState 4242 SERVER_PORT (t0 - 1000))).
  vm_compute; reflexivity.
Defined.

(** X10. [stopServer] with a state file that is missing, or holds text
    that does not parse, touches nothing: it sends no signal and leaves
    every file, the unreadable state file and a lock marker included,
    and only says that no server is running. *)
Theorem stopServer_without_state {OS} `{Platform OS} (w : World OS) :
  state_unreadable w ->
  stopServer w = (Ok tt, logged (EvConsole "No server is currently running" None) w).
Proof.
  intros Hbad.
  assert (Hs : stored w = None).
  { unfold stored. destruct Hbad as [->|(m & s & -> & _)]; reflexivity. }
  unfold stopServer, bind. now rewrite loadState_eq, Hs.
Qed.

Lemma stopServer_without_state_witness :
  stopServer w_corrupt
    = (Ok tt, logged (EvConsole "No server is currently running" None) w_corrupt).
Proof.
  apply (stopServer_without_state w_corrupt).
  right. exists (t0 - 1000), "{"%string. split; vm_compute; reflexivity.
Defined.

(** X11. After a [stopServer] that found a descriptor, the next
    [ensureServer] takes the lock at its first attempt and goes to
    [startServer] with no probe of the stopped server.  When
    [startServer] returns a pid, [ensureServer] returns and stores the
    fresh descriptor of that pid; when [startServer] throws,
    [ensureServer] throws the same error. *)
Theorem ensureServer_after_stopServer {OS} `{Platform OS} (w : World OS) d :
  stored w = Some d ->
  let ws := after stopServer w in
  let w1 := after (lockAttempts 5) ws in
  os w1 = os ws /\
  ensureServer ws = (result startFresh w1, released (after startFresh w1)) /\
  (forall child, result startServer w1 = Ok child ->
     let fresh := mkState child SERVER_PORT (clock (os (after ensureServer ws))) in
     result ensureServer ws = Ok fresh /\
     stored (after ensureServer ws) = Some fresh) /\
  (forall e, result startServer w1 = Throw e -> result ensureServer ws = Throw e).
Proof.
  intros Hs ws w1.
  destruct (stopServer_stops w d Hs) as (_ & _ & _ & Hfiles & Hnone & _).
  fold ws in Hfiles, Hnone.
  assert (Hlock : files ws !! LOCK_FILE = None).
  { rewrite Hfiles. rewrite lookup_delete_ne by (intros E; now apply paths_differ).
    apply lookup_delete_eq. }
  assert (Hs1 : stored w1 = None) by (unfold w1; now rewrite lockAttempts_stored).
  assert (Ek : knownServer (after (lockAttempts 5) ws) = (Ok None, w1))
    by now apply knownServer_none.
  assert (E : ensureServer ws = (result startFresh w1, released (after startFresh w1)))
    by now apply ensureServer_restart_from.
  split; [now apply lockAttempts_free|]. split; [exact E|]. split.
  - intros child Hstart.
    destruct (ensureServer_restart_ok ws w1 child Ek Hstart) as (Hr & _ & Hst).
    now split.
  - intros e Hstart. unfold result at 1. rewrite E. cbn [fst].
    unfold result. now rewrite (startFresh_throw e w1 Hstart).
Qed.

Lemma ensureServer_after_stopServer_witness :
  let ws := after stopServer w_unresponsive in
  let w1 := after (lockAttempts 5) ws in
  (os w1 = os ws /\
   ensureServer ws = (result startFresh w1, released (after startFresh w1)) /\
   (forall child, result startServer w1 = Ok child ->
      let fresh := mkState child SERVER_PORT (clock (os (after ensureServer ws))) in
      result ensureServer ws = Ok fresh /\
      stored (after ensureServer ws) = Some fresh) /\
   (forall e, result startServer w1 = Throw e -> result ensureServer ws = Throw e)) /\
  result startServer w1 = Ok 5000 /\
  result ensureServer ws = Ok (mkState 5000 SERVER_PORT (t0 + 900)).
Proof.
  intros ws w1. split; [|split; vm_compute; reflexivity].
  apply (ensureServer_after_stopServer w_unresponsive (mkState 4242 SERVER_PORT (t0 - 1000))).
  vm_compute; reflexivity.
Defined.

(** ** [showStatus] *)

(** The word and the colour of the status line. *)
Lemma statusLine_word `{Terminal} (a r : bool) :
  statusLine a r =
  [Str (colorize "Status:" "cyan");
   Str (if a then if r then colorize "RUNNING" "green"
                  else colorize "STARTING" "yellow"
        else colorize "STOPPED" "red")].
Proof. now destruct a, r. Qed.

(** [showStatus] in one equation. *)
Lemma showStatus_eq {OS} `{Platform OS} `{Terminal} (w : World OS) :
  showStatus w =
  match stored w with
  | None =>
      (Ok (statusHeader ++
           [[Str (colorize "Status:" "cyan"); Str (colorize "NOT RUNNING" "red")];
            [Str (String "010" "No server is currently active.")];
            [Str "The server will start automatically on the first format request."]]),
       w)
  | Some d =>
      let a := alive (os w) (pid d) in
      let r := if a then responsive (os w) (port d) else false in
      (Ok (statusHeader ++
           [statusLine a r;
            [Str (colorize "PID:" "cyan"); Num (pid d)];
            [Str (colorize "Port:" "cyan"); Num (port d)];
            [Str (colorize "Last Access:" "cyan"); Str (toLocaleString (lastAccess d))];
            idleLine (clock (os w) - lastAccess d);
            [Str (colorize "State File:" "cyan"); Str STATE_FILE];
            [Str (colorize "Lock File:" "cyan"); Str LOCK_FILE];
            [Str (colorize "Idle Timeout:" "cyan");
             Str (dec timeoutMinutes +:+ " minutes")];
            [Str ""]]),
       mkWorld (os w) (files w)
               ((if a then [EvGet (port d); EvShell (KillProbe (pid d))]
                 else [EvShell (KillProbe (pid d))]) ++ trace w))
  end.
Proof.
  unfold showStatus, bind at 1. rewrite loadState_eq.
  destruct (stored w) as [d|]; [|reflexivity].
  unfold bind at 1. rewrite isProcessRunning_eq.
  destruct (alive (os w) (pid d)).
  - unfold bind at 1. rewrite isServerResponsive_eq. reflexivity.
  - reflexivity.
Qed.

(** X12. [showStatus] only looks: it never throws, sends no signal,
    sleeps for nothing, spawns nothing and writes no file; it leaves the
    platform and the files as they were. *)
Theorem showStatus_reads_only {OS} `{Platform OS} `{Terminal} (w : World OS) :
  (exists lines, result showStatus w = Ok lines) /\
  os (after showStatus w) = os w /\
  files (after showStatus w) = files w.
Proof.
  unfold result, after. rewrite showStatus_eq.
  destruct (stored w) as [d|]; (split; [eexists|split]; reflexivity).
Qed.

(** X13. With a stored descriptor the status [showStatus] reports is
    RUNNING when the pid is running and the port answers, STARTING when
    the pid is running and the port does not answer, STOPPED when the pid
    is not running, in which case the port is not looked at.  With a
    state file that is missing, or holds text that does not parse, it
    reports NOT RUNNING and probes nothing. *)
Theorem showStatus_status {OS} `{Platform OS} `{Terminal} (w : World OS) :
  (forall d, stored w = Some d ->
     let a := alive (os w) (pid d) in
     let r := responsive (os w) (port d) in
     (exists rest,
        result showStatus w =
        Ok (statusHeader ++
            [Str (colorize "Status:" "cyan");
             Str (if a then if r then colorize "RUNNING" "green"
                            else colorize "STARTING" "yellow"
                  else colorize "STOPPED" "red")] :: rest)) /\
     trace (after showStatus w) =
       (if a then [EvGet (port d); EvShell (KillProbe (pid d))]
        else [EvShell (KillProbe (pid d))]) ++ trace w) /\
  (state_unreadable w ->
   (exists rest,
      result showStatus w =
      Ok (statusHeader ++
          [Str (colorize "Status:" "cyan"); Str (colorize "NOT RUNNING" "red")] :: rest)) /\
   after showStatus w = w).
Proof.
  split.
  - intros d Hs a r. unfold result, after. rewrite showStatus_eq, Hs.
    cbv zeta. fold a r. cbn [fst snd trace]. rewrite statusLine_word.
    split; [|reflexivity]. eexists. now destruct a.
  - intros Hbad.
    assert (Hs : stored w = None).
    { unfold stored. destruct Hbad as [->|(m & s & -> & _)]; reflexivity. }
    unfold result, after. rewrite showStatus_eq, Hs.
    split; [eexists|]; reflexivity.
Qed.

Lemma showStatus_status_witness :
  (exists rest,
     result showStatus w_unresponsive =
     Ok (statusHeader ++
         [Str (colorize "Status:" "cyan");
          Str (if alive (os w_unresponsive) (pid (mkState 4242 SERVER_PORT (t0 - 1000)))
               then if responsive (os w_unresponsive)
                         (port (mkState 4242 SERVER_PORT (t0 - 1000)))
                    then colorize "RUNNING" "green"
                    else colorize "STARTING" "yellow"
               else colorize "STOPPED" "red")] :: rest)) /\
  nth 2 (match result showStatus w_unresponsive with Ok l => l | Throw _ => [] end) []
    = [Str ("Status:" +:+ RESET); Str ("STARTING" +:+ RESET)] /\
  after showStatus w_cold_dead = w_cold_dead.
Proof.
  split; [|split].
  - apply (proj1 (showStatus_status w_unresponsive) (mkState 4242 SERVER_PORT (t0 - 1000))).
    vm_compute; reflexivity.
  - vm_compute; reflexivity.
  - apply (proj2 (showStatus_status w_cold_dead)). left. vm_compute; reflexivity.
Defined.

(** X14. For an idle time that is not negative, the minutes and seconds
    that [showStatus] prints are the idle time in whole seconds split at
    60: the seconds are between 0 and 59. *)
Theorem idle_minutes_seconds (idleTime : Z) :
  0 <= idleTime ->
  0 <= idleMinutes idleTime /\
  0 <= idleSeconds idleTime <= 59 /\
  60 * idleMinutes idleTime + idleSeconds idleTime = idleTime / 1000.
Proof.
  intros Hpos. unfold idleMinutes, idleSeconds.
  rewrite Z.rem_mod_nonneg by lia.
  pose proof (Z.div_mod idleTime 60000 ltac:(lia)).
  pose proof (Z.mod_pos_bound idleTime 60000 ltac:(lia)).
  pose proof (Z.div_mod idleTime 1000 ltac:(lia)).
  pose proof (Z.mod_pos_bound idleTime 1000 ltac:(lia)).
  pose proof (Z.div_mod (idleTime / 1000) 60 ltac:(lia)).
  pose proof (Z.mod_pos_bound (idleTime / 1000) 60 ltac:(lia)).
  pose proof (Z.div_mod (idleTime mod 60000) 1000 ltac:(lia)).
  pose proof (Z.mod_pos_bound (idleTime mod 60000) 1000 ltac:(lia)).
  rewrite Z.div_div by lia. change (1000 * 60) with 60000.
  lia.
Qed.

Lemma idle_minutes_seconds_witness :
  0 <= idleMinutes 3725999 /\
  0 <= idleSeconds 3725999 <= 59 /\
  60 * idleMinutes 3725999 + idleSeconds 3725999 = 3725999 / 1000.
Proof. apply idle_minutes_seconds. lia. Defined.

Lemma idleMinutes_eq (idleTime : Z) : idleMinutes idleTime = idleTime / 60000.
Proof. unfold idleMinutes. now rewrite Z.div_div by lia. Qed.

(** X15. The idle line by the idle time in milliseconds: from one hour
    on it is red and says that the server will shut down; from 45
    minutes up to one hour it is yellow and gives the minutes left,
    between 1 and 15; below 45 minutes it is green. *)
Theorem idleLine_thresholds `{Terminal} (idleTime : Z) :
  let shown := dec (idleMinutes idleTime) +:+ "m "
               +:+ dec (idleSeconds idleTime) +:+ "s" in
  (IDLE_TIMEOUT_MS <= idleTime ->
   idleLine idleTime =
   [Str (colorize "Idle Time:" "cyan"); Str (colorize shown "red");
    Str "(will shutdown)"]) /\
  (2700000 <= idleTime < IDLE_TIMEOUT_MS ->
   idleLine idleTime =
   [Str (colorize "Idle Time:" "cyan"); Str (colorize shown "yellow");
    Str ("(" +:+ dec (timeoutMinutes - idleMinutes idleTime) +:+ "m until timeout)")] /\
   1 <= timeoutMinutes - idleMinutes idleTime <= 15) /\
  (idleTime < 2700000 ->
   idleLine idleTime =
   [Str (colorize "Idle Time:" "cyan"); Str (colorize shown "green")]).
Proof.
  cbv zeta. unfold idleLine. rewrite !idleMinutes_eq.
  change timeoutMinutes with 60. change IDLE_TIMEOUT_MS with 3600000.
  pose proof (Z.div_mod idleTime 60000 ltac:(lia)) as Hdm.
  pose proof (Z.mod_pos_bound idleTime 60000 ltac:(lia)) as Hmb.
  rewrite !Z.geb_leb.
  destruct (Z.leb_spec 60 (idleTime / 60000)) as [Hred|Hred];
    destruct (Z.leb_spec (3 * 60) (4 * (idleTime / 60000))) as [Hyel|Hyel];
    (split; [|split]); intros Hrange; try lia; try reflexivity.
  split; [reflexivity|lia].
Qed.

Lemma idleLine_thresholds_witness :
  idleLine 3600000 =
    [Str (colorize "Idle Time:" "cyan");
     Str (colorize (dec (idleMinutes 3600000) +:+ "m "
                    +:+ dec (idleSeconds 3600000) +:+ "s") "red");
     Str "(will shutdown)"] /\
  1 <= timeoutMinutes - idleMinutes 2700000 <= 15 /\
  idleLine 2699999 =
    [Str (colorize "Idle Time:" "cyan");
     Str (colorize (dec (idleMinutes 2699999) +:+ "m "
                    +:+ dec (idleSeconds 2699999) +:+ "s") "green")].
Proof.
  split; [|split].
  - apply (proj1 (idleLine_thresholds 3600000)). vm_compute; discriminate.
  - apply (proj1 (proj2 (idleLine_thresholds 2700000))).
    split; vm_compute; [discriminate|reflexivity].
  - apply (proj2 (proj2 (idleLine_thresholds 2699999))). reflexivity.
Defined.

(** X16. A descriptor that has been idle for exactly one hour is shown
    by [showStatus] as about to shut down, and is not reaped:
    [cleanupIdleServer] does nothing then, for it reaps only past the
    hour. *)
Theorem showStatus_warns_before_reap {OS} `{Platform OS} `{Terminal}
    (w : World OS) d :
  stored w = Some d ->
  clock (os w) - lastAccess d = IDLE_TIMEOUT_MS ->
  (exists before rest,
     result showStatus w =
     Ok (before ++
         [Str (colorize "Idle Time:" "cyan");
          Str (colorize (dec (idleMinutes IDLE_TIMEOUT_MS) +:+ "m "
                         +:+ dec (idleSeconds IDLE_TIMEOUT_MS) +:+ "s") "red");
          Str "(will shutdown)"] :: rest)) /\
  cleanupIdleServer d w = (Ok tt, w).
Proof.
  intros Hs Hidle. split.
  - unfold result. rewrite showStatus_eq, Hs. cbv zeta. cbn [fst]. rewrite Hidle.
    exists (statusHeader ++
            [statusLine (alive (os w) (pid d))
               (if alive (os w) (pid d) then responsive (os w) (port d) else false);
             [Str (colorize "PID:" "cyan"); Num (pid d)];
             [Str (colorize "Port:" "cyan"); Num (port d)];
             [Str (colorize "Last Access:" "cyan"); Str (toLocaleString (lastAccess d))]]).
    eexists. rewrite <- app_assoc. reflexivity.
  - apply cleanupIdleServer_fresh. lia.
Qed.

Lemma showStatus_warns_before_reap_witness :
  let d := mkState 4242 SERVER_PORT (t0 - 3600000) in
  ((exists before rest,
      result showStatus w_one_hour =
      Ok (before ++
          [Str (colorize "Idle Time:" "cyan");
           Str (colorize (dec (idleMinutes IDLE_TIMEOUT_MS) +:+ "m "
                          +:+ dec (idleSeconds IDLE_TIMEOUT_MS) +:+ "s") "red");
           Str "(will shutdown)"] :: rest)) /\
   cleanupIdleServer d w_one_hour = (Ok tt, w_one_hour)) /\
  result ensureServer w_one_hour = Ok d.
Proof.
  intros d. split; [|vm_compute; reflexivity].
  apply (showStatus_warns_before_reap w_one_hour d); vm_compute; reflexivity.
Defined.

(** ** [main] *)

Section Main.
Context {OS : Type} `{Platform OS} `{Terminal}.

Lemma stopServer_ok (w : World OS) : stopServer w = (Ok tt, after stopServer w).
Proof.
  unfold after. destruct (stored w) as [d|] eqn:Hs.
  - pose proof (stopServer_eq w d Hs) as E. cbv zeta in E. now rewrite E.
  - unfold stopServer, bind. now rewrite loadState_eq, Hs.
Qed.

Lemma not_flag name flag : ~ In name flags -> In flag flags ->
  bool_decide (Some name = Some flag) = false.
Proof.
  intros Hn Hf. apply bool_decide_eq_false_2. intros [= ->]. now apply Hn.
Qed.

(** Past the flags and the two gates [main] is the call of
    [formatCode]. *)
Lemma main_format (w : World OS) name input :
  ~ In name flags -> name <> EmptyString -> input <> EmptyString ->
  main (Some name) input w =
  (formatted <- formatCode name input ;; ret (mkFinished 0 [Written formatted])) w.
Proof.
  intros Hn Hname Hinput. unfold main.
  rewrite !(not_flag name) by (assumption || (cbn; tauto)).
  cbn [orb]. destruct name; [contradiction|]. destruct input; [contradiction|].
  reflexivity.
Qed.

Lemma main_usage (w : World OS) arg input :
  falsy arg = true ->
  main arg input w =
  (Ok (mkFinished 1 []),
   logged (EvConsole "Try 'csharpierd --help' for more information" None)
     (logged (EvConsole "Usage: csharpierd <filename> < input.cs" None) w)).
Proof.
  intros Hf. unfold main.
  destruct arg as [[|c s]|]; try discriminate; reflexivity.
Qed.

End Main.

(** X17. Without a file name, absent or empty, and without input,
    [main] ends with status 1 before anything is done about the server:
    nothing is probed, locked, spawned or sent, nothing goes to standard
    output, and the platform and the files are as they were. *)
Theorem toplevel_usage_errors {OS} `{Platform OS} `{Terminal} (w : World OS)
    arg input :
  (falsy arg = true ->
   toplevel arg input w =
   (Ok (mkFinished 1 []),
    logged (EvConsole "Try 'csharpierd --help' for more information" None)
      (logged (EvConsole "Usage: csharpierd <filename> < input.cs" None) w))) /\
  (forall name, arg = Some name -> ~ In name flags -> name <> EmptyString ->
   input = EmptyString ->
   toplevel arg input w =
   (Ok (mkFinished 1 []),
    logged (EvConsole "Error: No input provided via stdin" None) w)).
Proof.
  split.
  - intros Hf. unfold toplevel, try_catch. now rewrite (main_usage w arg input Hf).
  - intros name -> Hn Hname ->. unfold toplevel, try_catch, main.
    rewrite !(not_flag name) by (assumption || (cbn; tauto)).
    cbn [orb]. destruct name; [contradiction|]. reflexivity.
Qed.

Lemma toplevel_usage_errors_witness :
  toplevel None "class A { }" w_healthy =
    (Ok (mkFinished 1 []),
     logged (EvConsole "Try 'csharpierd --help' for more information" None)
       (logged (EvConsole "Usage: csharpierd <filename> < input.cs" None) w_healthy)) /\
  toplevel (Some "Program.cs"%string) "" w_healthy =
    (Ok (mkFinished 1 []),
     logged (EvConsole "Error: No input provided via stdin" None) w_healthy).
Proof.
  split.
  - apply (proj1 (toplevel_usage_errors w_healthy None "class A { }")). reflexivity.
  - apply (proj2 (toplevel_usage_errors w_healthy (Some "Program.cs"%string) "")
             "Program.cs"%string); try reflexivity; try discriminate.
    cbn. intros [E|[E|[E|[E|[E|[]]]]]]; discriminate.
Defined.

(** X18. With a file name that is no flag and input that is not empty,
    [main] is one call of [formatCode] on that name and that input: what
    it returns is all that goes to standard output, with status 0; what
    it throws is logged as a fatal error, with status 1 and nothing on
    standard output.  So, once [ensureServer] has returned and the
    backend has answered 2xx with a formatted file that is not empty, the
    formatted file is the output. *)
Theorem toplevel_formats {OS} `{Platform OS} `{Terminal} (w : World OS)
    name input :
  ~ In name flags -> name <> EmptyString -> input <> EmptyString ->
  toplevel (Some name) input w =
    match formatCode name input w with
    | (Ok formatted, w') => (Ok (mkFinished 0 [Written formatted]), w')
    | (Throw e, w') =>
        (Ok (mkFinished 1 []), logged (EvConsole "Fatal error:" (Some e)) w')
    end /\
  (forall st r o2 v formatted,
     result ensureServer w = Ok st ->
     http_post (port st) (mkRequest (filePath name) input)
               (os (after ensureServer w)) = (Responded r, o2) ->
     ok r = true ->
     body_json r = Some v ->
     formattedFile v = Some formatted ->
     formatted <> EmptyString ->
     result (toplevel (Some name) input) w = Ok (mkFinished 0 [Written formatted])).
Proof.
  intros Hn Hname Hinput.
  assert (E : toplevel (Some name) input w =
    match formatCode name input w with
    | (Ok formatted, w') => (Ok (mkFinished 0 [Written formatted]), w')
    | (Throw e, w') =>
        (Ok (mkFinished 1 []), logged (EvConsole "Fatal error:" (Some e)) w')
    end).
  { unfold toplevel, try_catch. rewrite (main_format w name input Hn Hname Hinput).
    unfold bind. now destruct (formatCode name input w) as [[s|e] w']. }
  split; [exact E|].
  intros st r o2 v formatted He Hp Hok Hv Hf Hne.
  unfold result. rewrite E.
  pose proof (formatCode_answered w name input st r o2 He Hp) as Ea.
  cbv zeta in Ea. rewrite Hok, Hv, Hf in Ea. cbn [negb] in Ea. rewrite Ea.
  destruct formatted; [contradiction|reflexivity].
Qed.

Lemma toplevel_formats_witness :
  result (toplevel (Some "Program.cs"%string) "class A { }") w_healthy
    = Ok (mkFinished 0 [Written "class A { }"]) /\
  toplevel (Some "Program.cs"%string) "class A { }" w_parse_error =
    match formatCode "Program.cs" "class A { }" w_parse_error with
    | (Ok formatted, w') => (Ok (mkFinished 0 [Written formatted]), w')
    | (Throw e, w') =>
        (Ok (mkFinished 1 []), logged (EvConsole "Fatal error:" (Some e)) w')
    end /\
  result (toplevel (Some "Program.cs"%string) "class A { }") w_parse_error
    = Ok (mkFinished 1 []).
Proof.
  assert (Hn : ~ In "Program.cs"%string flags).
  { cbn. intros [E|[E|[E|[E|[E|[]]]]]]; discriminate. }
  split; [|split].
  - apply (proj2 (toplevel_formats w_healthy "Program.cs" "class A { }"
                    Hn ltac:(discriminate) ltac:(discriminate))
             (mkState 4242 SERVER_PORT (t0 - 1000))
             (mkResponse 200 "{...}" (Some (mkResult (Some "class A { }"%string) None Formatted)))
             (sim_up 200 echo)
             (mkResult (Some "class A { }"%string) None Formatted)).
    + vm_compute; reflexivity.
    + vm_compute; reflexivity.
    + vm_compute; reflexivity.
    + reflexivity.
    + reflexivity.
    + discriminate.
  - apply (proj1 (toplevel_formats w_parse_error "Program.cs" "class A { }"
                    Hn ltac:(discriminate) ltac:(discriminate))).
  - vm_compute; reflexivity.
Defined.

(** X19. An invocation never ends in an exception: whatever the argument
    and the input, it ends with status 0 or 1, and with status 1 nothing
    has gone to standard output. *)
Theorem toplevel_exit_status {OS} `{Platform OS} `{Terminal} (w : World OS)
    arg input :
  exists f,
    result (toplevel arg input) w = Ok f /\
    (exitCode f = 0 \/ exitCode f = 1) /\
    (exitCode f = 1 -> stdout f = []).
Proof.
  assert (Hmain : forall f, result (main arg input) w = Ok f ->
            (exitCode f = 0 \/ exitCode f = 1) /\ (exitCode f = 1 -> stdout f = [])).
  { intros f. unfold result, main.
    destruct (bool_decide (arg = Some "--help"%string) || bool_decide (arg = Some "-h"%string)).
    { intros [= <-]. split; [now left|discriminate]. }
    destruct (bool_decide (arg = Some "--status"%string)).
    { unfold bind. rewrite showStatus_eq.
      destruct (stored w); intros [= <-]; (split; [now left|discriminate]). }
    destruct (bool_decide (arg = Some "--stop"%string)).
    { unfold bind. rewrite stopServer_ok. intros [= <-]. split; [now left|discriminate]. }
    destruct (bool_decide (arg = Some "--start"%string)).
    { unfold bind. destruct (ensureServer w) as [[st|e] w']; [|discriminate].
      intros [= <-]. split; [now left|discriminate]. }
    destruct (falsy arg).
    { intros [= <-]. split; [now right|reflexivity]. }
    destruct (falsy (Some input)).
    { intros [= <-]. split; [now right|reflexivity]. }
    unfold bind. destruct (formatCode _ input w) as [[s|e] w']; [|discriminate].
    intros [= <-]. split; [now left|discriminate]. }
  unfold result in *. unfold toplevel, try_catch.
  destruct (main arg input w) as [[f|e] w'] eqn:E.
  - exists f. split; [reflexivity|]. now apply Hmain.
  - eexists. split; [reflexivity|]. split; [now right|reflexivity].
Qed.

(** X20. The flags that only show.  [--help] and [-h] print the help
    text and touch nothing, not even the trace; [--status] prints what
    [showStatus] logs and leaves the platform and the files as they
    were.  Both end with status 0, whatever the input. *)
Theorem toplevel_help_and_status {OS} `{Platform OS} `{Terminal} (w : World OS)
    arg input :
  (arg = Some "--help"%string \/ arg = Some "-h"%string ->
   toplevel arg input w = (Ok (mkFinished 0 [Log [Str helpText]]), w)) /\
  (arg = Some "--status"%string ->
   exists lines,
     result showStatus w = Ok lines /\
     result (toplevel arg input) w = Ok (mkFinished 0 (map Log lines)) /\
     os (after (toplevel arg input) w) = os w /\
     files (after (toplevel arg input) w) = files w).
Proof.
  split.
  - intros [->| ->]; unfold toplevel, try_catch, main;
      repeat case_bool_decide; try discriminate; try congruence; reflexivity.
  - intros ->. unfold result, after, toplevel, try_catch, main.
    repeat case_bool_decide; try discriminate; try congruence. cbn [orb].
    unfold bind. rewrite showStatus_eq.
    destruct (stored w); eexists;
      (split; [reflexivity|]); (split; [reflexivity|]); split; reflexivity.
Qed.

Lemma toplevel_help_and_status_witness :
  toplevel (Some "-h"%string) "" w_healthy
    = (Ok (mkFinished 0 [Log [Str helpText]]), w_healthy) /\
  (exists lines,
     result showStatus w_healthy = Ok lines /\
     result (toplevel (Some "--status"%string) "") w_healthy
       = Ok (mkFinished 0 (map Log lines)) /\
     os (after (toplevel (Some "--status"%string) "") w_healthy) = os w_healthy /\
     files (after (toplevel (Some "--status"%string) "") w_healthy) = files w_healthy).
Proof.
  split.
  - apply (proj1 (toplevel_help_and_status w_healthy (Some "-h"%string) "")).
    now right.
  - apply (proj2 (toplevel_help_and_status w_healthy (Some "--status"%string) "")).
    reflexivity.
Defined.

(** X21. The flags that act.  [--stop] ends with status 0 whether or not
    a server was known, in the world [stopServer] leaves.  [--start] ends
    with status 0 and the line that the server is ready when
    [ensureServer] returns; when [ensureServer] throws, it ends with
    status 1 and the error is logged as fatal. *)
Theorem toplevel_stop_and_start {OS} `{Platform OS} `{Terminal} (w : World OS)
    arg input :
  (arg = Some "--stop"%string ->
   toplevel arg input w = (Ok (mkFinished 0 []), after stopServer w)) /\
  (arg = Some "--start"%string ->
   toplevel arg input w =
   match result ensureServer w with
   | Ok _ =>
       (Ok (mkFinished 0 []),
        logged (EvConsole "CSharpier server is ready" None) (after ensureServer w))
   | Throw e =>
       (Ok (mkFinished 1 []),
        logged (EvConsole "Fatal error:" (Some e)) (after ensureServer w))
   end).
Proof.
  split.
  - intros ->. unfold toplevel, try_catch, main.
    repeat case_bool_decide; try discriminate; try congruence. cbn [orb].
    unfold bind. now rewrite stopServer_ok.
  - intros ->. unfold toplevel, try_catch, main.
    repeat case_bool_decide; try discriminate; try congruence. cbn [orb].
    unfold bind, result, after. now destruct (ensureServer w) as [[st|e] w'].
Qed.

Lemma toplevel_stop_and_start_witness :
  toplevel (Some "--stop"%string) "" w_cold_dead
    = (Ok (mkFinished 0 []), after stopServer w_cold_dead) /\
  toplevel (Some "--start"%string) "" w_cold_dead =
    match result ensureServer w_cold_dead with
    | Ok _ =>
        (Ok (mkFinished 0 []),
         logged (EvConsole "CSharpier server is ready" None)
           (after ensureServer w_cold_dead))
    | Throw e =>
        (Ok (mkFinished 1 []),
         logged (EvConsole "Fatal error:" (Some e)) (after ensureServer w_cold_dead))
    end /\
  result (toplevel (Some "--start"%string) "") w_cold_dead = Ok (mkFinished 1 []) /\
  result (toplevel (Some "--start"%string) "") w_healthy = Ok (mkFinished 0 []).
Proof.
  split; [|split; [|split]].
  - apply (proj1 (toplevel_stop_and_start w_cold_dead (Some "--stop"%string) "")).
    reflexivity.
  - apply (proj2 (toplevel_stop_and_start w_cold_dead (Some "--start"%string) "")).
    reflexivity.
  - vm_compute; reflexivity.
  - vm_compute; reflexivity.
Defined.
